(** * WeeChat configuration core (src/core/wee-config.c)

    A shallow embedding of the parts of [wee-config.c] that own state:
    the day-change timer, the reload entry point, and the readers and
    writers of the two structured sections ("bars" and "keys"), together
    with the option registry they are declared in.

    C [int] and [long] values are integers in [Z] with the conversions
    written out, C strings are [string], a [NULL] pointer is [None], the
    linked lists [gui_bars], [gui_keys], [gui_buffers] and [weechat_hooks]
    are lists in link order, and the global variables of the C program are
    the fields of one record [State] that every function takes and
    returns.

    Functions of other files of the program (wee-string.c, wee-hook.c,
    wee-config-file.c, gui-bar.c, gui-chat.c, gui-keyboard.c) are
    modelled, each under a comment that says so; their tables and the
    time functions of the C library are the fields of the class
    [Externals]. *)

From Stdlib Require Import ZArith List String Ascii Bool Lia.
Import ListNotations.

Local Open Scope Z_scope.
Local Open Scope list_scope.

(** ** C library *)

Module CLib.

Definition INT_MAX : Z := 2147483647.
Definition INT_MIN : Z := -2147483648.
Definition LONG_MAX : Z := 9223372036854775807.
Definition LONG_MIN : Z := -9223372036854775808.

(** Conversion of a [long] to an [int] ([size = number]): the value
    is reduced modulo 2^32 into the range of [int]. *)
Definition int_of_long (n : Z) : Z :=
  (n + 2147483648) mod 4294967296 - 2147483648.

(** [isspace] in the C locale. *)
Definition isspace (c : ascii) : bool :=
  let n := Z.of_nat (nat_of_ascii c) in
  (n =? 32) || ((9 <=? n) && (n <=? 13)).

(** Value of a decimal digit, [None] for any other character. *)
Definition digit_value (c : ascii) : option Z :=
  let n := Z.of_nat (nat_of_ascii c) in
  if (48 <=? n) && (n <=? 57) then Some (n - 48) else None.

Definition digit_char (d : Z) : ascii :=
  ascii_of_nat (Z.to_nat (48 + d)).

Fixpoint skip_spaces (s : string) : string :=
  match s with
  | String c s' => if isspace c then skip_spaces s' else s
  | EmptyString => s
  end.

(** The digit loop of [strtol]: [acc] is the value read so far, [any]
    tells whether a digit was consumed; the result carries the rest of
    the string after the last digit. *)
Fixpoint strtol_digits (s : string) (acc : Z) (any : bool)
  : Z * bool * string :=
  match s with
  | String c s' =>
      match digit_value c with
      | Some d => strtol_digits s' (acc * 10 + d) true
      | None => (acc, any, s)
      end
  | EmptyString => (acc, any, s)
  end.

(** The optional sign: whether it is a minus, and the text after it. *)
Definition strip_sign (s : string) : bool * string :=
  match s with
  | String c r =>
      if Ascii.eqb c "-" then (true, r)
      else if Ascii.eqb c "+" then (false, r)
      else (false, s)
  | EmptyString => (false, s)
  end.

Definition clamp_long (n : Z) : Z :=
  if n <? LONG_MIN then LONG_MIN
  else if LONG_MAX <? n then LONG_MAX else n.

(** [strtol (nptr, &endptr, 10)]: the pair of the returned [long] and of
    the string [endptr] points to.  White space is skipped, one sign is
    accepted, then decimal digits; with no digit at all the result is 0
    and [endptr] is [nptr]; a value out of range is clamped. *)
Definition strtol (nptr : string) : Z * string :=
  let s1 := skip_spaces nptr in
  let '(neg, s2) := strip_sign s1 in
  match strtol_digits s2 0 false with
  | (n, true, rest) => (clamp_long (if neg then - n else n), rest)
  | (_, false, _) => (0, nptr)
  end.

(** Digits of a non-negative number, most significant first, put in
    front of [acc]. *)
Fixpoint print_digits (fuel : nat) (n : Z) (acc : string) : string :=
  match fuel with
  | O => acc
  | S fuel' =>
      let acc' := String (digit_char (n mod 10)) acc in
      if n / 10 =? 0 then acc' else print_digits fuel' (n / 10) acc'
  end.

Definition print_unsigned (n : Z) : string :=
  print_digits (S (Z.to_nat (Z.log2 n))) n EmptyString.

(** The conversion [%d] of [printf]. *)
Definition print_int (n : Z) : string :=
  if n <? 0 then String "-"%char (print_unsigned (- n))
  else print_unsigned n.

Fixpoint all_digits (s : string) : bool :=
  match s with
  | String c s' =>
      match digit_value c with
      | Some _ => all_digits s'
      | None => false
      end
  | EmptyString => true
  end.

(** A string that is a base-10 integer for [strtol]: optional white
    space, an optional sign, then one decimal digit or more and nothing
    else. *)
Definition is_base10_integer (s : string) : bool :=
  match snd (strip_sign (skip_spaces s)) with
  | String _ _ as digits => all_digits digits
  | EmptyString => false
  end.

End CLib.

Import CLib.

(** ** Strings (wee-string.c) *)

Definition string_is_empty (s : string) : bool :=
  match s with
  | EmptyString => true
  | String _ _ => false
  end.

(** [s[0] == c]. *)
Definition first_char_is (c : ascii) (s : string) : bool :=
  match s with
  | String c' _ => Ascii.eqb c' c
  | EmptyString => false
  end.

Definition is_separator (separators : string) (c : ascii) : bool :=
  existsb (Ascii.eqb c) (list_ascii_of_string separators).

(** The scan of [string_explode]: [item] is the item being read. *)
Fixpoint explode_scan (separators s item : string) : list string :=
  match s with
  | String c s' =>
      if is_separator separators c then
        if string_is_empty item then explode_scan separators s' EmptyString
        else item :: explode_scan separators s' EmptyString
      else explode_scan separators s' (item ++ String c EmptyString)%string
  | EmptyString => if string_is_empty item then [] else [item]
  end.

(** Modelled from the spec: [string_explode] is in wee-string.c, which
    is not among the sources.  The call made here is
    [string_explode (value, ";", 0, 0, &argc)]: the value is cut into its
    separator-delimited fields, [argv] is the list of the fields and
    [argc] its length.  A field is a maximal run of characters that are
    not separators, so separators at either end or next to each other
    delimit no field. *)
Definition string_explode (s separators : string) : list string :=
  explode_scan separators s EmptyString.

Fixpoint has_no_separator (separators s : string) : bool :=
  match s with
  | String c s' =>
      negb (is_separator separators c) && has_no_separator separators s'
  | EmptyString => true
  end.

(** A field: a text that is not empty and holds no separator. *)
Definition is_field (separators s : string) : bool :=
  negb (string_is_empty s) && has_no_separator separators s.

(** Position of the first entry of a table equal to [s]. *)
Fixpoint string_index (s : string) (table : list string) : option Z :=
  match table with
  | [] => None
  | t :: table' =>
      if String.eqb t s then Some 0
      else option_map Z.succ (string_index s table')
  end.

(** [table[i]] for a table of strings. *)
Definition table_get (table : list string) (i : Z) : string :=
  if i <? 0 then EmptyString else nth (Z.to_nat i) table EmptyString.

(** The text before the first space and, when there is a space, the
    text after it. *)
Fixpoint split_first_space (s : string) : string * option string :=
  match s with
  | EmptyString => (EmptyString, None)
  | String c s' =>
      if Ascii.eqb c " "%char then (EmptyString, Some s')
      else let '(w, r) := split_first_space s' in (String c w, r)
  end.



(** ** Data model *)

(** The change callbacks of wee-config.c, as the function pointers
    handed to [config_file_new_option]. *)
Inductive t_change_callback : Set :=
| cb_config_change_save_on_exit
| cb_config_change_title
| cb_config_change_buffers
| cb_config_change_buffer_content
| cb_config_change_buffer_time_format
| cb_config_change_hotlist
| cb_config_change_read_marker
| cb_config_change_prefix
| cb_config_change_color
| cb_config_change_nicks_colors
| cb_config_change_infobar_seconds
| cb_config_change_day_change.

(** The timer callbacks hooked by wee-config.c. *)
Inductive t_hook_callback : Set :=
| hook_cb_config_day_change_timer
| hook_cb_gui_infobar_refresh_timer.

(** Calls into the rendering layer, kept as a trace: that layer is
    outside this file and only the calls made to it are recorded. *)
Inductive t_gui_call : Set :=
| call_gui_window_title_set
| call_gui_window_title_reset
| call_gui_window_refresh_windows
| call_gui_window_redraw_buffer
| call_gui_window_redraw_all_buffers
| call_util_get_time_length (format : string)
| call_gui_chat_change_time_format
| call_gui_hotlist_resort
| call_gui_chat_prefix_build
| call_gui_color_init_pairs
| call_gui_color_rebuild_weechat
| call_gui_infobar_refresh_timer_cb.

Inductive t_config_option_type : Set :=
| CONFIG_OPTION_BOOLEAN
| CONFIG_OPTION_INTEGER
| CONFIG_OPTION_STRING
| CONFIG_OPTION_COLOR.

(** What [option->value] points to: an [int] or a string. *)
Inductive t_config_value : Set :=
| VInt (n : Z)
| VString (s : string).

(** [struct t_config_option], with the fields that the arguments of
    [config_file_new_option] fill.  [option_string_values] is [None] for
    a plain integer and the list of labels for an integer declared with
    ["a|b|c"]. *)
Record t_config_option : Set := {
  option_name : string;
  option_type : t_config_option_type;
  option_string_values : option (list string);
  option_min : Z;
  option_max : Z;
  option_default_value : t_config_value;
  option_value : t_config_value;
  option_callback_change : option t_change_callback
}.

(** [struct t_hook] for a timer: [hook_ptr] is the address of the hook,
    the other fields are the arguments of [hook_timer]. *)
Record t_hook : Set := {
  hook_ptr : Z;
  hook_interval : Z;
  hook_align_second : Z;
  hook_max_calls : Z;
  hook_callback : t_hook_callback
}.

(** [struct t_gui_bar]: [bar_type] and [bar_position] index the tables
    [gui_bar_type_str] and [gui_bar_position_str]. *)
Record t_gui_bar : Set := {
  bar_name : string;
  bar_type : Z;
  bar_position : Z;
  bar_size : Z;
  bar_separator : Z;
  bar_items : string
}.

(** [struct t_gui_key]: a binding holds a function pointer with optional
    arguments, or a command. *)
Record t_gui_key : Set := {
  key_key : string;
  key_command : option string;
  key_function : option Z;
  key_args : option string
}.

Inductive t_gui_buffer_type : Set :=
| GUI_BUFFER_TYPE_FORMATED
| GUI_BUFFER_TYPE_FREE.

(** [struct t_gui_buffer]: the type of the buffer and the lines printed
    in it. *)
Record t_gui_buffer : Set := {
  buffer_type : t_gui_buffer_type;
  buffer_lines : list string
}.

(** A line handed to [config_file_write_line]: the option (or section)
    name and the formatted value, [None] for a section header. *)
Definition t_config_line : Set := (string * option string)%type.

(** The global variables.  [callbacks_fired] is a ghost trace of the
    change callbacks the option registry has invoked; a buffer pointer
    is the position of the buffer in [gui_buffers]. *)
Record State : Set := {
  weechat_config_options : list t_config_option;
  config_day_change_timer : option Z;
  gui_infobar_refresh_timer : option Z;
  weechat_hooks : list t_hook;
  gui_bars : list t_gui_bar;
  gui_keys : list t_gui_key;
  gui_buffers : list t_gui_buffer;
  gui_hotlist : list nat;
  gui_add_hotlist : Z;
  gui_ok : Z;
  gui_status_refresh_needed : Z;
  gui_calls : list t_gui_call;
  callbacks_fired : list t_change_callback
}.

Definition set_weechat_config_options (v : list t_config_option) (st : State) : State :=
  {| weechat_config_options := v;
     config_day_change_timer := config_day_change_timer st;
     gui_infobar_refresh_timer := gui_infobar_refresh_timer st;
     weechat_hooks := weechat_hooks st;
     gui_bars := gui_bars st;
     gui_keys := gui_keys st;
     gui_buffers := gui_buffers st;
     gui_hotlist := gui_hotlist st;
     gui_add_hotlist := gui_add_hotlist st;
     gui_ok := gui_ok st;
     gui_status_refresh_needed := gui_status_refresh_needed st;
     gui_calls := gui_calls st;
     callbacks_fired := callbacks_fired st |}.

Definition set_config_day_change_timer (v : option Z) (st : State) : State :=
  {| weechat_config_options := weechat_config_options st;
     config_day_change_timer := v;
     gui_infobar_refresh_timer := gui_infobar_refresh_timer st;
     weechat_hooks := weechat_hooks st;
     gui_bars := gui_bars st;
     gui_keys := gui_keys st;
     gui_buffers := gui_buffers st;
     gui_hotlist := gui_hotlist st;
     gui_add_hotlist := gui_add_hotlist st;
     gui_ok := gui_ok st;
     gui_status_refresh_needed := gui_status_refresh_needed st;
     gui_calls := gui_calls st;
     callbacks_fired := callbacks_fired st |}.

Definition set_gui_infobar_refresh_timer (v : option Z) (st : State) : State :=
  {| weechat_config_options := weechat_config_options st;
     config_day_change_timer := config_day_change_timer st;
     gui_infobar_refresh_timer := v;
     weechat_hooks := weechat_hooks st;
     gui_bars := gui_bars st;
     gui_keys := gui_keys st;
     gui_buffers := gui_buffers st;
     gui_hotlist := gui_hotlist st;
     gui_add_hotlist := gui_add_hotlist st;
     gui_ok := gui_ok st;
     gui_status_refresh_needed := gui_status_refresh_needed st;
     gui_calls := gui_calls st;
     callbacks_fired := callbacks_fired st |}.

Definition set_weechat_hooks (v : list t_hook) (st : State) : State :=
  {| weechat_config_options := weechat_config_options st;
     config_day_change_timer := config_day_change_timer st;
     gui_infobar_refresh_timer := gui_infobar_refresh_timer st;
     weechat_hooks := v;
     gui_bars := gui_bars st;
     gui_keys := gui_keys st;
     gui_buffers := gui_buffers st;
     gui_hotlist := gui_hotlist st;
     gui_add_hotlist := gui_add_hotlist st;
     gui_ok := gui_ok st;
     gui_status_refresh_needed := gui_status_refresh_needed st;
     gui_calls := gui_calls st;
     callbacks_fired := callbacks_fired st |}.

Definition set_gui_bars (v : list t_gui_bar) (st : State) : State :=
  {| weechat_config_options := weechat_config_options st;
     config_day_change_timer := config_day_change_timer st;
     gui_infobar_refresh_timer := gui_infobar_refresh_timer st;
     weechat_hooks := weechat_hooks st;
     gui_bars := v;
     gui_keys := gui_keys st;
     gui_buffers := gui_buffers st;
     gui_hotlist := gui_hotlist st;
     gui_add_hotlist := gui_add_hotlist st;
     gui_ok := gui_ok st;
     gui_status_refresh_needed := gui_status_refresh_needed st;
     gui_calls := gui_calls st;
     callbacks_fired := callbacks_fired st |}.

Definition set_gui_keys (v : list t_gui_key) (st : State) : State :=
  {| weechat_config_options := weechat_config_options st;
     config_day_change_timer := config_day_change_timer st;
     gui_infobar_refresh_timer := gui_infobar_refresh_timer st;
     weechat_hooks := weechat_hooks st;
     gui_bars := gui_bars st;
     gui_keys := v;
     gui_buffers := gui_buffers st;
     gui_hotlist := gui_hotlist st;
     gui_add_hotlist := gui_add_hotlist st;
     gui_ok := gui_ok st;
     gui_status_refresh_needed := gui_status_refresh_needed st;
     gui_calls := gui_calls st;
     callbacks_fired := callbacks_fired st |}.

Definition set_gui_buffers (v : list t_gui_buffer) (st : State) : State :=
  {| weechat_config_options := weechat_config_options st;
     config_day_change_timer := config_day_change_timer st;
     gui_infobar_refresh_timer := gui_infobar_refresh_timer st;
     weechat_hooks := weechat_hooks st;
     gui_bars := gui_bars st;
     gui_keys := gui_keys st;
     gui_buffers := v;
     gui_hotlist := gui_hotlist st;
     gui_add_hotlist := gui_add_hotlist st;
     gui_ok := gui_ok st;
     gui_status_refresh_needed := gui_status_refresh_needed st;
     gui_calls := gui_calls st;
     callbacks_fired := callbacks_fired st |}.

Definition set_gui_hotlist (v : list nat) (st : State) : State :=
  {| weechat_config_options := weechat_config_options st;
     config_day_change_timer := config_day_change_timer st;
     gui_infobar_refresh_timer := gui_infobar_refresh_timer st;
     weechat_hooks := weechat_hooks st;
     gui_bars := gui_bars st;
     gui_keys := gui_keys st;
     gui_buffers := gui_buffers st;
     gui_hotlist := v;
     gui_add_hotlist := gui_add_hotlist st;
     gui_ok := gui_ok st;
     gui_status_refresh_needed := gui_status_refresh_needed st;
     gui_calls := gui_calls st;
     callbacks_fired := callbacks_fired st |}.

Definition set_gui_add_hotlist (v : Z) (st : State) : State :=
  {| weechat_config_options := weechat_config_options st;
     config_day_change_timer := config_day_change_timer st;
     gui_infobar_refresh_timer := gui_infobar_refresh_timer st;
     weechat_hooks := weechat_hooks st;
     gui_bars := gui_bars st;
     gui_keys := gui_keys st;
     gui_buffers := gui_buffers st;
     gui_hotlist := gui_hotlist st;
     gui_add_hotlist := v;
     gui_ok := gui_ok st;
     gui_status_refresh_needed := gui_status_refresh_needed st;
     gui_calls := gui_calls st;
     callbacks_fired := callbacks_fired st |}.

Definition set_gui_ok (v : Z) (st : State) : State :=
  {| weechat_config_options := weechat_config_options st;
     config_day_change_timer := config_day_change_timer st;
     gui_infobar_refresh_timer := gui_infobar_refresh_timer st;
     weechat_hooks := weechat_hooks st;
     gui_bars := gui_bars st;
     gui_keys := gui_keys st;
     gui_buffers := gui_buffers st;
     gui_hotlist := gui_hotlist st;
     gui_add_hotlist := gui_add_hotlist st;
     gui_ok := v;
     gui_status_refresh_needed := gui_status_refresh_needed st;
     gui_calls := gui_calls st;
     callbacks_fired := callbacks_fired st |}.

Definition set_gui_status_refresh_needed (v : Z) (st : State) : State :=
  {| weechat_config_options := weechat_config_options st;
     config_day_change_timer := config_day_change_timer st;
     gui_infobar_refresh_timer := gui_infobar_refresh_timer st;
     weechat_hooks := weechat_hooks st;
     gui_bars := gui_bars st;
     gui_keys := gui_keys st;
     gui_buffers := gui_buffers st;
     gui_hotlist := gui_hotlist st;
     gui_add_hotlist := gui_add_hotlist st;
     gui_ok := gui_ok st;
     gui_status_refresh_needed := v;
     gui_calls := gui_calls st;
     callbacks_fired := callbacks_fired st |}.

Definition set_gui_calls (v : list t_gui_call) (st : State) : State :=
  {| weechat_config_options := weechat_config_options st;
     config_day_change_timer := config_day_change_timer st;
     gui_infobar_refresh_timer := gui_infobar_refresh_timer st;
     weechat_hooks := weechat_hooks st;
     gui_bars := gui_bars st;
     gui_keys := gui_keys st;
     gui_buffers := gui_buffers st;
     gui_hotlist := gui_hotlist st;
     gui_add_hotlist := gui_add_hotlist st;
     gui_ok := gui_ok st;
     gui_status_refresh_needed := gui_status_refresh_needed st;
     gui_calls := v;
     callbacks_fired := callbacks_fired st |}.

Definition set_callbacks_fired (v : list t_change_callback) (st : State) : State :=
  {| weechat_config_options := weechat_config_options st;
     config_day_change_timer := config_day_change_timer st;
     gui_infobar_refresh_timer := gui_infobar_refresh_timer st;
     weechat_hooks := weechat_hooks st;
     gui_bars := gui_bars st;
     gui_keys := gui_keys st;
     gui_buffers := gui_buffers st;
     gui_hotlist := gui_hotlist st;
     gui_add_hotlist := gui_add_hotlist st;
     gui_ok := gui_ok st;
     gui_status_refresh_needed := gui_status_refresh_needed st;
     gui_calls := gui_calls st;
     callbacks_fired := v |}.

(** What the configuration core takes from the other modules of the
    program and from the C library: the tables of gui-bar.c, the table of
    key functions and the key display names of gui-keyboard.c, the colour
    table of gui-color.c, and the time functions. *)
Class Externals : Type := {
  gui_bar_type_str : list string;
  gui_bar_position_str : list string;
  gui_key_functions : list (string * Z);
  gui_keyboard_get_expanded_name : string -> option string;
  gui_color_search : string -> option Z;
  tm : Set;
  localtime : Z -> tm;
  strftime : Z -> string -> tm -> string;
  string_iconv_to_internal : string -> option string
}.

Definition dquote : string := String "034"%char EmptyString.

Definition tab : string := String "009"%char EmptyString.

(** ** Option registry (wee-config-file.c) *)

Inductive t_set_result : Set :=
| SetOk
| InvalidValue
| OptionNotFound.

Definition ascii_tolower (c : ascii) : ascii :=
  let n := nat_of_ascii c in
  if ((65 <=? n) && (n <=? 90))%nat then ascii_of_nat (n + 32) else c.

Fixpoint string_tolower (s : string) : string :=
  match s with
  | String c s' => String (ascii_tolower c) (string_tolower s')
  | EmptyString => EmptyString
  end.

Definition digits_value (s : string) : Z :=
  fst (fst (strtol_digits s 0 false)).

(** The value of a base-10 signed integer, [None] for any other text. *)
Definition parse_integer (s : string) : option Z :=
  if is_base10_integer s then
    let '(neg, digits) := strip_sign (skip_spaces s) in
    Some (if neg then - digits_value digits else digits_value digits)
  else None.

Definition config_file_search_option (name : string) (st : State)
  : option t_config_option :=
  find (fun o => String.eqb (option_name o) name) (weechat_config_options st).

Definition CONFIG_BOOLEAN (o : option t_config_option) : Z :=
  match o with
  | Some {| option_value := VInt n |} => n
  | _ => 0
  end.

Definition CONFIG_INTEGER (o : option t_config_option) : Z :=
  CONFIG_BOOLEAN o.

Definition CONFIG_STRING (o : option t_config_option) : string :=
  match o with
  | Some {| option_value := VString s |} => s
  | _ => EmptyString
  end.

(** The option pointers of wee-config.c read by the code below; a
    pointer is [NULL] until the option is declared. *)
Definition config_look_save_on_exit := config_file_search_option "look_save_on_exit".
Definition config_look_set_title := config_file_search_option "look_set_title".
Definition config_look_scroll_amount := config_file_search_option "look_scroll_amount".
Definition config_look_buffer_time_format := config_file_search_option "look_buffer_time_format".
Definition config_look_infobar_seconds := config_file_search_option "look_infobar_seconds".
Definition config_look_day_change := config_file_search_option "look_day_change".
Definition config_look_day_change_time_format := config_file_search_option "look_day_change_time_format".

Section WithExternals.

Context {ext : Externals}.

(** Modelled from the spec: the validation of the option type system
    (section 4.2); the code is in wee-config-file.c, which is not among
    the sources.  A boolean takes "on" or "off" in any case; a plain
    integer is a base-10 signed integer within [[min, max]]; an integer
    with labels takes one of its labels and stores its position; a string
    is taken as it is unless a declared maximum length is exceeded; a
    colour is resolved by the colour table. *)
Definition option_validate (o : t_config_option) (raw : string)
  : option t_config_value :=
  match option_type o with
  | CONFIG_OPTION_BOOLEAN =>
      if String.eqb (string_tolower raw) "on" then Some (VInt 1)
      else if String.eqb (string_tolower raw) "off" then Some (VInt 0)
      else None
  | CONFIG_OPTION_INTEGER =>
      match option_string_values o with
      | Some labels => option_map VInt (string_index raw labels)
      | None =>
          match parse_integer raw with
          | Some n =>
              if (option_min o <=? n) && (n <=? option_max o)
              then Some (VInt n) else None
          | None => None
          end
      end
  | CONFIG_OPTION_STRING =>
      if (0 <? option_max o) && (option_max o <? Z.of_nat (String.length raw))
      then None else Some (VString raw)
  | CONFIG_OPTION_COLOR => option_map VInt (gui_color_search raw)
  end.

Definition option_type_of_string (type : string) : option t_config_option_type :=
  if String.eqb type "boolean" then Some CONFIG_OPTION_BOOLEAN
  else if String.eqb type "integer" then Some CONFIG_OPTION_INTEGER
  else if String.eqb type "string" then Some CONFIG_OPTION_STRING
  else if String.eqb type "color" then Some CONFIG_OPTION_COLOR
  else None.

(** Modelled from the spec: [declare_option] (section 4.1), called
    [config_file_new_option] in the code, with the arguments the calls of
    [config_weechat_init] give it: name, type, string values, minimum,
    maximum, default value and change callback.  The result is [None]
    ([InvalidDefault]) when the default does not pass validation. *)
Definition config_file_new_option
  (name type : string) (string_values : option string) (min max : Z)
  (default_value : string) (callback_change : option t_change_callback)
  : option t_config_option :=
  match option_type_of_string type with
  | None => None
  | Some ty =>
      let o := {| option_name := name;
                  option_type := ty;
                  option_string_values :=
                    option_map (fun s => string_explode s "|") string_values;
                  option_min := min;
                  option_max := max;
                  option_default_value := VInt 0;
                  option_value := VInt 0;
                  option_callback_change := callback_change |} in
      match option_validate o default_value with
      | None => None
      | Some v =>
          Some {| option_name := name;
                  option_type := ty;
                  option_string_values := option_string_values o;
                  option_min := min;
                  option_max := max;
                  option_default_value := v;
                  option_value := v;
                  option_callback_change := callback_change |}
      end
  end.

Definition option_with_value (v : t_config_value) (o : t_config_option)
  : t_config_option :=
  {| option_name := option_name o;
     option_type := option_type o;
     option_string_values := option_string_values o;
     option_min := option_min o;
     option_max := option_max o;
     option_default_value := option_default_value o;
     option_value := v;
     option_callback_change := option_callback_change o |}.

(** The value of the option called [name] is replaced, in place. *)
Fixpoint option_store (name : string) (v : t_config_value)
  (options : list t_config_option) : list t_config_option :=
  match options with
  | [] => []
  | o :: options' =>
      if String.eqb (option_name o) name
      then option_with_value v o :: options'
      else o :: option_store name v options'
  end.

(** ** Collaborators of gui-chat.c, gui-hotlist.c and wee-hook.c *)

Fixpoint buffer_add_line (ptr : nat) (line : string)
  (buffers : list t_gui_buffer) : list t_gui_buffer :=
  match buffers, ptr with
  | [], _ => []
  | b :: buffers', O =>
      {| buffer_type := buffer_type b;
         buffer_lines := buffer_lines b ++ [line] |} :: buffers'
  | b :: buffers', S ptr' => b :: buffer_add_line ptr' line buffers'
  end.

Definition gui_hotlist_add (ptr : nat) (st : State) : State :=
  if existsb (Nat.eqb ptr) (gui_hotlist st) then st
  else set_gui_hotlist (gui_hotlist st ++ [ptr]) st.

(** Modelled from the spec: [gui_chat_printf] is in gui-chat.c, which is
    not among the sources.  The message, already formatted, becomes one
    line of the buffer (section 4.6: a target receives a single notice
    line), of the first buffer for a [NULL] pointer.  The buffer enters
    the hotlist unless the global [gui_add_hotlist] is 0: that is the
    flag by which wee-config.c switches hotlist accumulation off around
    its calls. *)
Definition gui_chat_printf (buffer : option nat) (message : string)
  (st : State) : State :=
  let ptr := match buffer with Some p => p | None => O end in
  let st1 := set_gui_buffers (buffer_add_line ptr message (gui_buffers st)) st in
  if gui_add_hotlist st1 =? 0 then st1 else gui_hotlist_add ptr st1.

Definition gui_call (c : t_gui_call) (st : State) : State :=
  set_gui_calls (gui_calls st ++ [c]) st.

Definition hook_fresh_ptr (hooks : list t_hook) : Z :=
  1 + fold_right (fun h m => Z.max (hook_ptr h) m) 0 hooks.

(** Modelled from the spec: [hook_timer] is in wee-hook.c, which is not
    among the sources.  A new timer is created at an address no hook
    has, added at the end of the list of hooks, and returned. *)
Definition hook_timer (interval align_second max_calls : Z)
  (callback : t_hook_callback) (st : State) : option Z * State :=
  let p := hook_fresh_ptr (weechat_hooks st) in
  (Some p,
   set_weechat_hooks
     (weechat_hooks st ++
      [{| hook_ptr := p;
          hook_interval := interval;
          hook_align_second := align_second;
          hook_max_calls := max_calls;
          hook_callback := callback |}]) st).

(** Modelled from the spec: [unhook] is in wee-hook.c; the hook at this
    address is cancelled and leaves the list of hooks. *)
Definition unhook (hook : Z) (st : State) : State :=
  set_weechat_hooks
    (filter (fun h => negb (hook_ptr h =? hook)) (weechat_hooks st)) st.

(** ** wee-config.c: change callbacks *)

(** The callbacks are translated in the order of the file.  A test of an
    option pointer ([if (config_look_set_title)]) is a test of the
    pointer, not of the value of the option, as in the source.  A call
    into the rendering layer is recorded in [gui_calls]; the assignment
    [gui_chat_time_length = util_get_time_length (...)] is recorded as
    the call, with its argument. *)

Definition config_change_save_on_exit (st : State) : State :=
  match config_look_save_on_exit st with
  | None =>
      gui_chat_printf None
        ("Warning: you should now issue /save to write " ++ dquote ++
         "save_on_exit" ++ dquote ++ " option in configuration file")%string
        st
  | Some _ => st
  end.

Definition config_change_title (st : State) : State :=
  match config_look_set_title st with
  | Some _ => gui_call call_gui_window_title_set st
  | None => gui_call call_gui_window_title_reset st
  end.

Definition config_change_buffers (st : State) : State :=
  gui_call call_gui_window_refresh_windows st.

Definition config_change_buffer_content (st : State) : State :=
  gui_call call_gui_window_redraw_buffer st.

Definition config_change_buffer_time_format (st : State) : State :=
  let st1 :=
    gui_call (call_util_get_time_length
                (CONFIG_STRING (config_look_buffer_time_format st))) st in
  let st2 := gui_call call_gui_chat_change_time_format st1 in
  gui_call call_gui_window_redraw_buffer st2.

Definition config_change_hotlist (st : State) : State :=
  let st1 := gui_call call_gui_hotlist_resort st in
  set_gui_status_refresh_needed 1 st1.

Definition config_change_read_marker (st : State) : State :=
  gui_call call_gui_window_redraw_all_buffers st.

Definition config_change_prefix (st : State) : State :=
  gui_call call_gui_chat_prefix_build st.

Definition config_change_color (st : State) : State :=
  if gui_ok st =? 0 then st
  else
    let st1 := gui_call call_gui_color_init_pairs st in
    let st2 := gui_call call_gui_color_rebuild_weechat st1 in
    gui_call call_gui_window_refresh_windows st2.

Definition config_change_nicks_colors (st : State) : State := st.

Definition config_change_infobar_seconds (st : State) : State :=
  let st1 :=
    match gui_infobar_refresh_timer st with
    | Some h => unhook h st
    | None => st
    end in
  let seconds :=
    if CONFIG_BOOLEAN (config_look_infobar_seconds st1) =? 0 then 60 else 1 in
  let '(h, st2) :=
    hook_timer (seconds * 1000) seconds 0 hook_cb_gui_infobar_refresh_timer st1 in
  let st3 := set_gui_infobar_refresh_timer h st2 in
  gui_call call_gui_infobar_refresh_timer_cb st3.

(** ** wee-config.c: the day-change timer *)

Definition WEECHAT_RC_OK : Z := 0.

Definition day_changed_message (text : string) : string :=
  (tab ++ tab ++ "Day changed to " ++ text)%string.

(** The loop over [gui_buffers]: [ptrs] are the buffer pointers still to
    visit. *)
Fixpoint day_change_loop (ptrs : list nat) (text : string) (st : State)
  : State :=
  match ptrs with
  | [] => st
  | ptr_buffer :: ptrs' =>
      let st' :=
        match nth_error (gui_buffers st) ptr_buffer with
        | Some {| buffer_type := GUI_BUFFER_TYPE_FORMATED |} =>
            gui_chat_printf (Some ptr_buffer) (day_changed_message text) st
        | _ => st
        end in
      day_change_loop ptrs' text st'
  end.

(** [config_day_change_timer_cb]; [tv_sec] is the time that
    [gettimeofday] gives when the timer fires. *)
Definition config_day_change_timer_cb (tv_sec : Z) (st : State)
  : Z * State :=
  let local_time := localtime tv_sec in
  let text_time :=
    strftime 1024 (CONFIG_STRING (config_look_day_change_time_format st))
      local_time in
  let text_time2 := string_iconv_to_internal text_time in
  let st1 := set_gui_add_hotlist 0 st in
  let st2 :=
    day_change_loop (seq 0 (List.length (gui_buffers st1)))
      match text_time2 with
      | Some t => t
      | None => text_time
      end st1 in
  let st3 := set_gui_add_hotlist 1 st2 in
  (WEECHAT_RC_OK, st3).

Definition config_change_day_change (st : State) : State :=
  if negb (CONFIG_BOOLEAN (config_look_day_change st) =? 0) then
    match config_day_change_timer st with
    | None =>
        let '(h, st1) :=
          hook_timer (24 * 3600 * 1000) (24 * 3600) 0
            hook_cb_config_day_change_timer st in
        set_config_day_change_timer h st1
    | Some _ => st
    end
  else
    match config_day_change_timer st with
    | Some h => set_config_day_change_timer None (unhook h st)
    | None => st
    end.

Definition run_change_callback (cb : t_change_callback) : State -> State :=
  match cb with
  | cb_config_change_save_on_exit => config_change_save_on_exit
  | cb_config_change_title => config_change_title
  | cb_config_change_buffers => config_change_buffers
  | cb_config_change_buffer_content => config_change_buffer_content
  | cb_config_change_buffer_time_format => config_change_buffer_time_format
  | cb_config_change_hotlist => config_change_hotlist
  | cb_config_change_read_marker => config_change_read_marker
  | cb_config_change_prefix => config_change_prefix
  | cb_config_change_color => config_change_color
  | cb_config_change_nicks_colors => config_change_nicks_colors
  | cb_config_change_infobar_seconds => config_change_infobar_seconds
  | cb_config_change_day_change => config_change_day_change
  end.

(** Modelled from the spec: [set (option, raw)] (sections 4.1 and 4.4);
    the code is in wee-config-file.c, which is not among the sources.
    The raw text is validated; on success the stored value is replaced
    and then the change callback, if any, is invoked; on failure nothing
    is stored and [InvalidValue] is reported. *)
Definition config_file_option_set (name raw : string) (st : State)
  : t_set_result * State :=
  match config_file_search_option name st with
  | None => (OptionNotFound, st)
  | Some o =>
      match option_validate o raw with
      | None => (InvalidValue, st)
      | Some v =>
          let st1 :=
            set_weechat_config_options
              (option_store name v (weechat_config_options st)) st in
          match option_callback_change o with
          | Some cb =>
              (SetOk,
               run_change_callback cb
                 (set_callbacks_fired (callbacks_fired st1 ++ [cb]) st1))
          | None => (SetOk, st1)
          end
      end
  end.

(** ** Collaborators of gui-bar.c and gui-keyboard.c *)

Definition gui_bar_search (name : string) (st : State) : option t_gui_bar :=
  find (fun b => String.eqb (bar_name b) name) (gui_bars st).

(** Modelled from the spec: [gui_bar_new] is in gui-bar.c, which is not
    among the sources.  A new bar definition is created under [name] at
    the end of [gui_bars] (creation order); the type and the position are
    kept as their index in [gui_bar_type_str] and [gui_bar_position_str],
    which is what the writer prints from.  Names are unique, so no bar is
    created when one has this name already, and none when the type or
    the position is in neither table. *)
Definition gui_bar_new (name type position : string) (size separator : Z)
  (items : string) (st : State) : State :=
  match gui_bar_search name st,
        string_index type gui_bar_type_str,
        string_index position gui_bar_position_str with
  | None, Some t, Some p =>
      set_gui_bars
        (gui_bars st ++
         [{| bar_name := name;
             bar_type := t;
             bar_position := p;
             bar_size := size;
             bar_separator := separator;
             bar_items := items |}]) st
  | _, _, _ => st
  end.

Definition gui_keyboard_function_search_by_name (name : string) : option Z :=
  option_map snd (find (fun e => String.eqb (fst e) name) gui_key_functions).

Definition gui_keyboard_function_search_by_ptr (function : Z) : option string :=
  option_map fst (find (fun e => snd e =? function) gui_key_functions).

(** Modelled from the spec: [gui_keyboard_unbind] is in gui-keyboard.c,
    which is not among the sources.  Any binding of the key sequence is
    removed; nothing happens when there is none. *)
Definition gui_keyboard_unbind (key : string) (st : State) : State :=
  set_gui_keys
    (filter (fun k => negb (String.eqb (key_key k) key)) (gui_keys st)) st.

(** The binding that a value denotes: when the text before the first
    space is the name of a key function, the function and the text after
    the space as arguments; otherwise the whole value as a command. *)
Definition gui_keyboard_new (key command : string) : t_gui_key :=
  let '(word, args) := split_first_space command in
  match gui_keyboard_function_search_by_name word with
  | Some function =>
      {| key_key := key;
         key_command := None;
         key_function := Some function;
         key_args := args |}
  | None =>
      {| key_key := key;
         key_command := Some command;
         key_function := None;
         key_args := None |}
  end.

(** Modelled from the spec: [gui_keyboard_bind] is in gui-keyboard.c,
    which is not among the sources.  The key sequence is bound to the
    value, in place of any binding it had; the new binding is the last
    of [gui_keys]. *)
Definition gui_keyboard_bind (key command : string) (st : State) : State :=
  let st1 := gui_keyboard_unbind key st in
  set_gui_keys (gui_keys st1 ++ [gui_keyboard_new key command]) st1.

(** Modelled from the spec: [gui_keyboard_free_all] is in
    gui-keyboard.c; every key binding is released. *)
Definition gui_keyboard_free_all (st : State) : State :=
  set_gui_keys [] st.

(** [config_file_write_line (config_file, option_name, value, ...)]:
    the file is the list of the lines written so far. *)
Definition config_file_write_line (config_file : list t_config_line)
  (option_name : string) (value : option string) : list t_config_line :=
  config_file ++ [(option_name, value)].

(** ** wee-config.c: reload and the structured sections *)

(** [config_weechat_reload]; [config_file_reload] stands for the file
    engine re-reading [weechat_config_file], which returns a code and
    the state it leaves. *)
Definition config_weechat_reload (config_file_reload : State -> Z * State)
  (st : State) : Z * State :=
  let st1 := gui_keyboard_free_all st in
  config_file_reload st1.

Definition config_weechat_read_bar (option_name value : option string)
  (st : State) : State :=
  match option_name with
  | Some name =>
      match value with
      | Some v =>
          if negb (string_is_empty v) then
            let argv := string_explode v ";" in
            let argc := Z.of_nat (List.length argv) in
            if argc =? 5 then
              match argv with
              | [argv0; argv1; argv2; argv3; argv4] =>
                  let '(number, error) := strtol argv2 in
                  if string_is_empty error then
                    let size := int_of_long number in
                    gui_bar_new name argv0 argv1 size
                      (if first_char_is "0" argv3 then 0 else 1)
                      argv4 st
                  else st
              | _ => st
              end
            else st
          else st
      | None => st
      end
  | None => st
  end.

(** The value printed with ["%s;%s;%d;%d;%s"]. *)
Definition bar_value (b : t_gui_bar) : string :=
  (table_get gui_bar_type_str (bar_type b) ++ ";" ++
   table_get gui_bar_position_str (bar_position b) ++ ";" ++
   print_int (bar_size b) ++ ";" ++
   print_int (bar_separator b) ++ ";" ++
   bar_items b)%string.

Fixpoint write_bars_loop (bars : list t_gui_bar)
  (config_file : list t_config_line) : list t_config_line :=
  match bars with
  | [] => config_file
  | ptr_bar :: next_bar =>
      write_bars_loop next_bar
        (config_file_write_line config_file (bar_name ptr_bar)
           (Some (bar_value ptr_bar)))
  end.

Definition config_weechat_write_bars (config_file : list t_config_line)
  (section_name : string) (st : State) : list t_config_line :=
  write_bars_loop (gui_bars st)
    (config_file_write_line config_file section_name None).

Definition config_weechat_read_key (option_name value : option string)
  (st : State) : State :=
  match option_name with
  | Some name =>
      match value with
      | Some v =>
          if negb (string_is_empty v) then gui_keyboard_bind name v st
          else gui_keyboard_unbind name st
      | None => gui_keyboard_unbind name st
      end
  | None => st
  end.

(** The text of a binding that the writer puts between double quotes;
    a [NULL] command is printed by ["%s"] as [(null)]. *)
Definition key_function_text (function_name : string) (args : option string)
  : string :=
  (function_name ++
   match args with Some _ => " " | None => "" end ++
   match args with Some a => a | None => "" end)%string.

Definition key_command_text (command : option string) : string :=
  match command with
  | Some c => c
  | None => "(null)"
  end.

Fixpoint write_keys_loop (keys : list t_gui_key)
  (config_file : list t_config_line) : list t_config_line :=
  match keys with
  | [] => config_file
  | ptr_key :: next_key =>
      let expanded_name := gui_keyboard_get_expanded_name (key_key ptr_key) in
      let name :=
        match expanded_name with
        | Some e => e
        | None => key_key ptr_key
        end in
      let config_file' :=
        match key_function ptr_key with
        | Some function =>
            match gui_keyboard_function_search_by_ptr function with
            | Some function_name =>
                config_file_write_line config_file name
                  (Some (dquote ++
                         key_function_text function_name (key_args ptr_key) ++
                         dquote)%string)
            | None => config_file
            end
        | None =>
            config_file_write_line config_file name
              (Some (dquote ++ key_command_text (key_command ptr_key) ++
                     dquote)%string)
        end in
      write_keys_loop next_key config_file'
  end.

Definition config_weechat_write_keys (config_file : list t_config_line)
  (section_name : string) (st : State) : list t_config_line :=
  write_keys_loop (gui_keys st)
    (config_file_write_line config_file section_name None).

(** The file engine hands each line of a structured section, name and
    value, to the reader of the section. *)
Definition config_file_read_section
  (reader : option string -> option string -> State -> State)
  (lines : list (string * string)) (st : State) : State :=
  fold_left (fun s l => reader (Some (fst l)) (Some (snd l)) s) lines st.

(** The name and value of the lines of a written section that carry a
    value (the header of the section carries none). *)
Definition written_lines (config_file : list t_config_line)
  : list (string * string) :=
  flat_map (fun l => match snd l with
                     | Some v => [(fst l, v)]
                     | None => []
                     end) config_file.

(** [config_weechat_read]; [config_file_read] stands for the file engine
    reading [weechat_config_file]. *)
Definition config_weechat_read (config_file_read : State -> Z * State)
  (st : State) : Z * State :=
  let '(rc, st1) := config_file_read st in
  if rc =? 0 then
    (rc, config_change_day_change (config_change_infobar_seconds st1))
  else (rc, st1).

(** The options of the "look" section that the functions above read,
    with one option of each kind, as [config_weechat_init] declares
    them. *)
Definition look_options : list (option t_config_option) :=
  [ config_file_new_option "look_save_on_exit" "boolean" None 0 0 "on"
      (Some cb_config_change_save_on_exit);
    config_file_new_option "look_set_title" "boolean" None 0 0 "on"
      (Some cb_config_change_title);
    config_file_new_option "look_weechat_slogan" "string" None 0 0
      "the geekest IRC client!" None;
    config_file_new_option "look_scroll_amount" "integer" None 1 INT_MAX "3"
      (Some cb_config_change_buffer_content);
    config_file_new_option "look_buffer_time_format" "string" None 0 0
      "[%H:%M:%S]" (Some cb_config_change_buffer_time_format);
    config_file_new_option "look_nicklist_position" "integer"
      (Some "left|right|top|bottom"%string) 0 0 "right"
      (Some cb_config_change_buffers);
    config_file_new_option "look_infobar_seconds" "boolean" None 0 0 "on"
      (Some cb_config_change_infobar_seconds);
    config_file_new_option "look_hotlist_sort" "integer"
      (Some "group_time_asc|group_time_desc|group_number_asc|group_number_desc|number_asc|number_desc"%string)
      0 0 "group_time_asc" (Some cb_config_change_hotlist);
    config_file_new_option "look_day_change" "boolean" None 0 0 "on"
      (Some cb_config_change_day_change);
    config_file_new_option "look_day_change_time_format" "string" None 0 0
      "%a, %d %b %Y" None;
    config_file_new_option "look_read_marker" "string" None 0 1 " "
      (Some cb_config_change_read_marker) ].

Definition option_to_list {A : Type} (o : option A) : list A :=
  match o with
  | Some a => [a]
  | None => []
  end.

Definition config_weechat_init (st : State) : State :=
  set_weechat_config_options (flat_map option_to_list look_options) st.

(** ** Predicates of the statements *)

(** The line of a bar, name and value, as the writer prints it. *)
Definition bar_line (b : t_gui_bar) : string * string :=
  (bar_name b, bar_value b).

(** A bar definition as the reader makes them: the type and the
    position are entries of the tables under their first index, the size
    is an [int], the separator flag is 0 or 1, and the texts are fields
    of a line. *)
Definition bar_readable (b : t_gui_bar) : Prop :=
  string_index (table_get gui_bar_type_str (bar_type b)) gui_bar_type_str
    = Some (bar_type b) /\
  is_field ";" (table_get gui_bar_type_str (bar_type b)) = true /\
  string_index (table_get gui_bar_position_str (bar_position b))
    gui_bar_position_str = Some (bar_position b) /\
  is_field ";" (table_get gui_bar_position_str (bar_position b)) = true /\
  INT_MIN <= bar_size b <= INT_MAX /\
  (bar_separator b = 0 \/ bar_separator b = 1) /\
  is_field ";" (bar_items b) = true.

(** The name a binding is written under: the expanded name of its key,
    or the key itself when there is none. *)
Definition key_write_name (k : t_gui_key) : string :=
  match gui_keyboard_get_expanded_name (key_key k) with
  | Some e => e
  | None => key_key k
  end.

(** The text of a binding that the writer puts between double quotes,
    [None] when the writer prints no line for the binding. *)
Definition key_text (k : t_gui_key) : option string :=
  match key_function k with
  | Some function =>
      match gui_keyboard_function_search_by_ptr function with
      | Some function_name =>
          Some (key_function_text function_name (key_args k))
      | None => None
      end
  | None => Some (key_command_text (key_command k))
  end.

(** The lines the writer prints for one binding. *)
Definition key_lines (k : t_gui_key) : list t_config_line :=
  match key_text k with
  | Some t => [(key_write_name k, Some (dquote ++ t ++ dquote)%string)]
  | None => []
  end.


(** A binding that holds a function pointer no name is found for. *)
Definition key_unresolved (k : t_gui_key) : Prop :=
  exists function,
    key_function k = Some function /\
    gui_keyboard_function_search_by_ptr function = None.

(** A binding as the reader makes them from a value that is not
    empty. *)
Definition key_readable (k : t_gui_key) : Prop :=
  exists v, string_is_empty v = false /\ k = gui_keyboard_new (key_key k) v.





(** The calls into the rendering layer that the body of each change
    callback makes, in order, read off the source function by function:
    [st] is the state the callback is called in. *)
Definition callback_gui_calls (cb : t_change_callback) (st : State)
  : list t_gui_call :=
  match cb with
  | cb_config_change_save_on_exit => []
  | cb_config_change_title =>
      match config_look_set_title st with
      | Some _ => [call_gui_window_title_set]
      | None => [call_gui_window_title_reset]
      end
  | cb_config_change_buffers => [call_gui_window_refresh_windows]
  | cb_config_change_buffer_content => [call_gui_window_redraw_buffer]
  | cb_config_change_buffer_time_format =>
      [call_util_get_time_length
         (CONFIG_STRING (config_look_buffer_time_format st));
       call_gui_chat_change_time_format;
       call_gui_window_redraw_buffer]
  | cb_config_change_hotlist => [call_gui_hotlist_resort]
  | cb_config_change_read_marker => [call_gui_window_redraw_all_buffers]
  | cb_config_change_prefix => [call_gui_chat_prefix_build]
  | cb_config_change_color =>
      if gui_ok st =? 0 then []
      else [call_gui_color_init_pairs; call_gui_color_rebuild_weechat;
            call_gui_window_refresh_windows]
  | cb_config_change_nicks_colors => []
  | cb_config_change_infobar_seconds => [call_gui_infobar_refresh_timer_cb]
  | cb_config_change_day_change => []
  end.

(** The names of the table of key functions are distinct, not empty and
    without a space. *)
Definition key_functions_wf : Prop :=
  NoDup (map fst gui_key_functions) /\
  Forall (fun e => is_field " " (fst e) = true) gui_key_functions.

(** The date text of the day-change notice at time [tv_sec]: the time
    formatted with the option [look_day_change_time_format], converted
    to the internal charset when the conversion gives a text. *)
Definition day_change_text (tv_sec : Z) (st : State) : string :=
  let text_time :=
    strftime 1024 (CONFIG_STRING (config_look_day_change_time_format st))
      (localtime tv_sec) in
  match string_iconv_to_internal text_time with
  | Some t => t
  | None => text_time
  end.

End WithExternals.

(** A buffer after a day change: a formatted buffer has the notice as
    one more line, any other buffer is as it was. *)
Definition buffer_with_notice (text : string) (b : t_gui_buffer)
  : t_gui_buffer :=
  match buffer_type b with
  | GUI_BUFFER_TYPE_FORMATED =>
      {| buffer_type := buffer_type b;
         buffer_lines := buffer_lines b ++ [day_changed_message text] |}
  | GUI_BUFFER_TYPE_FREE => b
  end.

Definition is_day_change_timer (h : t_hook) : bool :=
  match hook_callback h with
  | hook_cb_config_day_change_timer => true
  | hook_cb_gui_infobar_refresh_timer => false
  end.

(** The armed day-change timers: the hooks whose callback is
    [config_day_change_timer_cb]. *)
Definition day_change_timers (st : State) : list t_hook :=
  filter is_day_change_timer (weechat_hooks st).

(** Hooks have distinct addresses, and the armed day-change timers are
    exactly the one [config_day_change_timer] points to, or none when it
    is [NULL]. *)
Definition day_change_timer_invariant (st : State) : Prop :=
  NoDup (map hook_ptr (weechat_hooks st)) /\
  map hook_ptr (day_change_timers st) =
  option_to_list (config_day_change_timer st).

Definition day_change_enabled (st : State) : bool :=
  negb (CONFIG_BOOLEAN (config_look_day_change st) =? 0).

(** The option [look_day_change] takes the value [v] and its change
    handler runs; [toggle_day_change] does so for each value of a list
    in turn. *)
Definition set_look_day_change (v : Z) (st : State) : State :=
  set_weechat_config_options
    (option_store "look_day_change" (VInt v) (weechat_config_options st)) st.

Definition toggle_day_change (values : list Z) (st : State) : State :=
  fold_left (fun s v => config_change_day_change (set_look_day_change v s))
    values st.

Definition day_change_timer_hook (p : Z) : t_hook :=
  {| hook_ptr := p;
     hook_interval := 24 * 3600 * 1000;
     hook_align_second := 24 * 3600;
     hook_max_calls := 0;
     hook_callback := hook_cb_config_day_change_timer |}.

(** The state of the program before [config_weechat_init]: nothing is
    declared, bound, hooked or open, and the hotlist is enabled. *)
Definition startup_state : State :=
  {| weechat_config_options := [];
     config_day_change_timer := None;
     gui_infobar_refresh_timer := None;
     weechat_hooks := [];
     gui_bars := [];
     gui_keys := [];
     gui_buffers := [];
     gui_hotlist := [];
     gui_add_hotlist := 1;
     gui_ok := 1;
     gui_status_refresh_needed := 0;
     gui_calls := [];
     callbacks_fired := [] |}.

(** Tables as gui-bar.c and gui-keyboard.c could give them, with a
    trivial clock, for running the functions on concrete inputs. *)
Definition sample_externals : Externals :=
  {| gui_bar_type_str := ["root"; "window_active"; "window_inactive"]%string;
     gui_bar_position_str := ["bottom"; "top"; "left"; "right"]%string;
     gui_key_functions :=
       [("return", 1001); ("tab", 1002); ("jump_smart", 1003)]%string;
     gui_keyboard_get_expanded_name := fun k => Some k;
     gui_color_search := fun _ => None;
     tm := Z;
     localtime := fun t => t;
     strftime := fun _ format t => (format ++ "@" ++ print_int t)%string;
     string_iconv_to_internal := fun _ => None |}.

(** ** Further predicates of the statements *)

Definition is_infobar_timer (h : t_hook) : bool :=
  match hook_callback h with
  | hook_cb_gui_infobar_refresh_timer => true
  | hook_cb_config_day_change_timer => false
  end.

(** The armed infobar timers: the hooks whose callback is
    [gui_infobar_refresh_timer_cb]. *)
Definition infobar_timers (st : State) : list t_hook :=
  filter is_infobar_timer (weechat_hooks st).

(** The invariant of both timers of wee-config.c: hooks have distinct
    addresses, and the armed timers of each kind are exactly the one its
    handle points to, or none when the handle is [NULL]. *)
Definition timers_invariant (st : State) : Prop :=
  day_change_timer_invariant st /\
  map hook_ptr (infobar_timers st) =
  option_to_list (gui_infobar_refresh_timer st).

(** The period, in seconds, that [config_change_infobar_seconds]
    computes from the option [look_infobar_seconds]. *)
Definition infobar_seconds (st : State) : Z :=
  if CONFIG_BOOLEAN (config_look_infobar_seconds st) =? 0 then 60 else 1.

Definition infobar_timer_hook (p seconds : Z) : t_hook :=
  {| hook_ptr := p;
     hook_interval := seconds * 1000;
     hook_align_second := seconds;
     hook_max_calls := 0;
     hook_callback := hook_cb_gui_infobar_refresh_timer |}.

(** A buffer after several day changes: a formatted buffer has one
    notice per text, in order, after its lines. *)
Definition buffer_with_notices (texts : list string) (b : t_gui_buffer)
  : t_gui_buffer :=
  match buffer_type b with
  | GUI_BUFFER_TYPE_FORMATED =>
      {| buffer_type := buffer_type b;
         buffer_lines := buffer_lines b ++ map day_changed_message texts |}
  | GUI_BUFFER_TYPE_FREE => b
  end.

Section FurtherDefinitions.

Context {ext : Externals}.

(** The day-change timer fires at each time of [times], in turn. *)
Definition fire_day_change (times : list Z) (st : State) : State :=
  fold_left (fun s tv_sec => snd (config_day_change_timer_cb tv_sec s))
    times st.

End FurtherDefinitions.

(** The bindings of the key sequence [key] among [keys]. *)
Definition bindings_of (key : string) (keys : list t_gui_key)
  : list t_gui_key :=
  filter (fun k => String.eqb (key_key k) key) keys.

(** * Properties *)

(** ** The C library: printing and reading integers *)

Module CLibFacts.













Lemma strtol_digits_not_all (s : string) :
  forall a any,
    all_digits s = false ->
    string_is_empty (snd (strtol_digits s a any)) = false.
Proof.
  induction s as [| c s IH]; intros a any H; [discriminate | ].
  cbn [strtol_digits all_digits] in *.
  destruct (digit_value c); [apply IH, H | reflexivity].
Qed.

Lemma strtol_digits_all (s : string) :
  forall a any,
    all_digits s = true ->
    exists n,
      strtol_digits s a any = (n, any || negb (string_is_empty s), EmptyString).
Proof.
  induction s as [| c s IH]; intros a any H.
  - exists a. cbn. rewrite orb_false_r. reflexivity.
  - cbn [strtol_digits all_digits] in *.
    destruct (digit_value c) as [d | ]; [ | discriminate].
    destruct (IH (a * 10 + d) true H) as [n E].
    exists n. rewrite E. cbn. rewrite orb_true_r. reflexivity.
Qed.

(** [strtol] stops before the end of a field that is not empty and is
    not a base-10 integer: the test [error[0] == 0] fails on it. *)
Lemma strtol_rejects (s : string) :
  s <> EmptyString ->
  is_base10_integer s = false ->
  string_is_empty (snd (strtol s)) = false.
Proof.
  intros Hne H. unfold strtol, is_base10_integer in *.
  destruct (strip_sign (skip_spaces s)) as [neg s2]. cbn [snd] in H.
  destruct (strtol_digits s2 0 false) as [[n any] rest] eqn:E.
  destruct any.
  - cbn [snd].
    destruct s2 as [| c s2].
    + cbn in E. discriminate.
    + pose proof (strtol_digits_not_all _ 0 false H) as R.
      rewrite E in R. exact R.
  - cbn [snd]. destruct s; [contradiction | reflexivity].
Qed.

(** [strtol] reads the whole of a base-10 integer. *)
Lemma strtol_accepts (s : string) :
  is_base10_integer s = true -> snd (strtol s) = EmptyString.
Proof.
  intros H. unfold strtol, is_base10_integer in *.
  destruct (strip_sign (skip_spaces s)) as [neg s2]. cbn [snd] in H.
  destruct s2 as [| c s2]; [discriminate | ].
  destruct (strtol_digits_all _ 0 false H) as [n E].
  rewrite E. reflexivity.
Qed.


Lemma int_of_long_range (n : Z) : INT_MIN <= int_of_long n <= INT_MAX.
Proof.
  unfold int_of_long, INT_MIN, INT_MAX.
  pose proof (Z.mod_pos_bound (n + 2147483648) 4294967296). lia.
Qed.

Lemma int_of_long_int (n : Z) :
  INT_MIN <= n <= INT_MAX -> int_of_long n = n.
Proof.
  unfold int_of_long, INT_MIN, INT_MAX. intros H.
  rewrite Z.mod_small by lia. lia.
Qed.

End CLibFacts.

(** ** Strings: fields and tables *)

Module StringFacts.

Lemma append_nil_r (s : string) : (s ++ "")%string = s.
Proof. induction s as [| c s IH]; cbn; [ | rewrite IH]; reflexivity. Qed.


Lemma append_empty (a b : string) :
  string_is_empty (a ++ b) = string_is_empty a && string_is_empty b.
Proof. destruct a; reflexivity. Qed.

Lemma has_no_separator_app (seps a b : string) :
  has_no_separator seps (a ++ b) =
  has_no_separator seps a && has_no_separator seps b.
Proof.
  induction a as [| c a IH]; cbn; [reflexivity | ].
  rewrite IH, andb_assoc. reflexivity.
Qed.

(** Every item that [string_explode] returns is a field. *)
Lemma explode_scan_fields (seps s : string) :
  forall item,
    has_no_separator seps item = true ->
    Forall (fun f => is_field seps f = true) (explode_scan seps s item).
Proof.
  induction s as [| c s IH]; intros item Hitem; cbn [explode_scan].
  - destruct (string_is_empty item) eqn:E; constructor; [ | constructor].
    unfold is_field. rewrite E, Hitem. reflexivity.
  - destruct (is_separator seps c) eqn:Hc.
    + destruct (string_is_empty item) eqn:E.
      * apply IH. reflexivity.
      * constructor; [ | apply IH; reflexivity].
        unfold is_field. rewrite E, Hitem. reflexivity.
    + apply IH. rewrite has_no_separator_app, Hitem. cbn. rewrite Hc.
      reflexivity.
Qed.

Lemma string_explode_fields (s seps : string) :
  Forall (fun f => is_field seps f = true) (string_explode s seps).
Proof. apply explode_scan_fields. reflexivity. Qed.







Lemma string_index_get (s : string) (table : list string) :
  forall i, string_index s table = Some i -> table_get table i = s.
Proof.
  induction table as [| t table IH]; intros i H; [discriminate | ].
  cbn [string_index] in H.
  destruct (String.eqb_spec t s) as [-> | N].
  - injection H as <-. reflexivity.
  - destruct (string_index s table) as [j | ] eqn:E; [ | discriminate].
    injection H as <-.
    assert (Hj : 0 <= j).
    { clear - E. revert j E.
      induction table as [| u table IHt]; intros j E; [discriminate | ].
      cbn in E. destruct (String.eqb u s); [injection E as <-; lia | ].
      destruct (string_index s table) as [k | ]; [ | discriminate].
      injection E as <-. specialize (IHt k eq_refl). lia. }
    specialize (IH j eq_refl). unfold table_get in *.
    destruct (j <? 0) eqn:Ej; [apply Z.ltb_lt in Ej; lia | ].
    destruct (Z.succ j <? 0) eqn:Es; [apply Z.ltb_lt in Es; lia | ].
    rewrite Z2Nat.inj_succ by lia. exact IH.
Qed.

End StringFacts.

(** ** Lists *)

Module ListFacts.

Lemma NoDup_snoc {A : Type} (l : list A) (x : A) :
  NoDup l -> ~ In x l -> NoDup (l ++ [x]).
Proof.
  induction l as [| a l IH]; intros ND Hx; cbn.
  - constructor; [intros [] | constructor].
  - inversion ND as [| ? ? Ha ND']; subst. constructor.
    + intros Hin. apply in_app_or in Hin as [Hin | [E | []]].
      * contradiction.
      * subst. apply Hx. left. reflexivity.
    + apply IH; [exact ND' | ]. intros Hin. apply Hx. right. exact Hin.
Qed.

Lemma filter_all {A : Type} (f : A -> bool) (l : list A) :
  (forall x, In x l -> f x = true) -> filter f l = l.
Proof.
  induction l as [| a l IH]; intros H; cbn; [reflexivity | ].
  rewrite (H a) by (left; reflexivity).
  rewrite IH; [reflexivity | ]. intros x Hx. apply H. right. exact Hx.
Qed.

Lemma NoDup_map_filter {A B : Type} (g : A -> B) (f : A -> bool) (l : list A) :
  NoDup (map g l) -> NoDup (map g (filter f l)).
Proof.
  induction l as [| a l IH]; intros ND; cbn; [constructor | ].
  inversion ND as [| ? ? Ha ND']; subst.
  destruct (f a); [ | apply IH, ND'].
  cbn. constructor; [ | apply IH, ND'].
  intros Hin. apply Ha. apply in_map_iff in Hin as (x & E & Hx).
  apply filter_In in Hx as [Hx _]. rewrite <- E. apply in_map, Hx.
Qed.

End ListFacts.

Lemma read_section_cons
  (reader : option string -> option string -> State -> State)
  (l : string * string) (lines : list (string * string)) (st : State) :
  config_file_read_section reader (l :: lines) st =
  config_file_read_section reader lines (reader (Some (fst l)) (Some (snd l)) st).
Proof. reflexivity. Qed.

(** ** The Bars section *)

Section BarsFacts.

Context {ext : Externals}.

Import CLibFacts StringFacts.

Lemma set_gui_bars_same (st : State) : set_gui_bars (gui_bars st) st = st.
Proof. destruct st; reflexivity. Qed.

Lemma write_bars_loop_spec (bars : list t_gui_bar) :
  forall config_file,
    write_bars_loop bars config_file =
    config_file ++ map (fun b => (bar_name b, Some (bar_value b))) bars.
Proof.
  induction bars as [| b bars IH]; intros config_file; cbn [write_bars_loop map].
  - rewrite app_nil_r. reflexivity.
  - rewrite IH. unfold config_file_write_line. rewrite <- app_assoc.
    reflexivity.
Qed.

Lemma written_lines_bars (section_name : string) (st : State) :
  written_lines (config_weechat_write_bars [] section_name st) =
  map bar_line (gui_bars st).
Proof.
  unfold config_weechat_write_bars. rewrite write_bars_loop_spec.
  cbn. induction (gui_bars st) as [| b bars IH]; cbn; [ | rewrite IH];
    reflexivity.
Qed.


Lemma gui_bar_search_some (name : string) (st : State) (b : t_gui_bar) :
  gui_bar_search name st = Some b -> In name (map bar_name (gui_bars st)).
Proof.
  unfold gui_bar_search. intros H. apply find_some in H as [Hin E].
  apply String.eqb_eq in E. subst name. apply in_map, Hin.
Qed.

(** What the reader does with one line: nothing, or one new readable bar
    under the name of the line, which no bar had. *)
Lemma config_weechat_read_bar_cases (name v : string) (st : State) :
  config_weechat_read_bar (Some name) (Some v) st = st \/
  exists b,
    bar_readable b /\ bar_name b = name /\
    ~ In name (map bar_name (gui_bars st)) /\
    config_weechat_read_bar (Some name) (Some v) st =
    set_gui_bars (gui_bars st ++ [b]) st.
Proof.
  unfold config_weechat_read_bar.
  destruct (negb (string_is_empty v)); [ | left; reflexivity].
  pose proof (string_explode_fields v ";") as F.
  destruct (string_explode v ";") as [| a0 [| a1 [| a2 [| a3 [| a4 [| a5 l]]]]]];
    try (left; reflexivity);
    try (left; match goal with
               | |- (if ?c then _ else _) = _ => destruct c; reflexivity
               end).
  cbn [List.length Z.of_nat]. cbv beta zeta.
  change (Z.of_nat 5 =? 5) with true. cbv iota.
  destruct (strtol a2) as [number error].
  destruct (string_is_empty error); [ | left; reflexivity].
  unfold gui_bar_new.
  destruct (gui_bar_search name st) eqn:S; [left; reflexivity | ].
  destruct (string_index a0 gui_bar_type_str) as [t | ] eqn:T;
    [ | left; reflexivity].
  destruct (string_index a1 gui_bar_position_str) as [p | ] eqn:P;
    [ | left; reflexivity].
  right. eexists. split; [ | split; [ | split; [ | reflexivity]]].
  - inversion F as [| ? ? F0 F']; subst. inversion F' as [| ? ? F1 F'']; subst.
    inversion F'' as [| ? ? F2 F3]; subst. inversion F3 as [| ? ? F3' F4]; subst.
    inversion F4 as [| ? ? F4' _]; subst.
    unfold bar_readable. cbn.
    rewrite (string_index_get _ _ _ T), (string_index_get _ _ _ P).
    pose proof (int_of_long_range number) as [Rl Rh].
    repeat split; try assumption.
    destruct (first_char_is "0" a3); [left | right]; reflexivity.
  - reflexivity.
  - intros Hin. clear - S Hin. unfold gui_bar_search in S.
    apply in_map_iff in Hin as (b & E & Hin).
    apply (find_none _ _ S) in Hin. rewrite E, String.eqb_refl in Hin.
    discriminate.
Qed.











End BarsFacts.

(** ** The Keys section *)

Section KeysFacts.

Context {ext : Externals}.

Import StringFacts.

Lemma set_gui_keys_same (st : State) : set_gui_keys (gui_keys st) st = st.
Proof. destruct st; reflexivity. Qed.

Lemma write_keys_loop_spec (keys : list t_gui_key) :
  forall config_file,
    write_keys_loop keys config_file = config_file ++ flat_map key_lines keys.
Proof.
  induction keys as [| k keys IH]; intros config_file;
    cbn [write_keys_loop flat_map].
  - rewrite app_nil_r. reflexivity.
  - rewrite IH. unfold key_lines, key_text, key_write_name, config_file_write_line.
    destruct (key_function k) as [f | ].
    + destruct (gui_keyboard_function_search_by_ptr f).
      * rewrite <- app_assoc. reflexivity.
      * reflexivity.
    + rewrite <- app_assoc. reflexivity.
Qed.

Lemma split_first_space_word (w : string) :
  has_no_separator " " w = true ->
  split_first_space w = (w, None) /\
  forall a, split_first_space (w ++ " " ++ a) = (w, Some a).
Proof.
  induction w as [| c w IH]; intros H.
  - split; reflexivity.
  - cbn [has_no_separator] in H. apply andb_true_iff in H as [Hc Hw].
    destruct (IH Hw) as [E1 E2].
    assert (Ec : Ascii.eqb c " " = false).
    { apply negb_true_iff in Hc. unfold is_separator in Hc. cbn in Hc.
      rewrite orb_false_r in Hc. exact Hc. }
    split.
    + cbn [split_first_space]. rewrite Ec, E1. reflexivity.
    + intros a. cbn [append split_first_space]. rewrite Ec.
      change (String " " a) with (" " ++ a)%string. rewrite E2. reflexivity.
Qed.

Lemma search_by_ptr_of_name (name : string) (f : Z) :
  gui_keyboard_function_search_by_name name = Some f ->
  exists name',
    gui_keyboard_function_search_by_ptr f = Some name' /\
    In (name', f) gui_key_functions.
Proof.
  unfold gui_keyboard_function_search_by_name,
    gui_keyboard_function_search_by_ptr.
  intros H.
  destruct (find (fun e => String.eqb (fst e) name) gui_key_functions)
    as [[n g] | ] eqn:E; [ | discriminate].
  cbn in H. injection H as ->.
  apply find_some in E as [Hin _].
  destruct (find (fun e => snd e =? f) gui_key_functions) as [[n' g'] | ] eqn:E'.
  - apply find_some in E' as [Hin' Hg]. cbn in Hg. apply Z.eqb_eq in Hg.
    subst g'. exists n'. split; [reflexivity | exact Hin'].
  - apply (find_none _ _ E') in Hin. cbn in Hin. rewrite Z.eqb_refl in Hin.
    discriminate.
Qed.

Lemma search_by_name_of_entry (table : list (string * Z)) (name : string) (f : Z) :
  NoDup (map fst table) ->
  In (name, f) table ->
  option_map snd (find (fun e => String.eqb (fst e) name) table) = Some f.
Proof.
  induction table as [| [n g] table IH]; intros ND Hin; [destruct Hin | ].
  cbn [find fst]. inversion ND as [| ? ? Hn ND']; subst.
  destruct Hin as [E | Hin].
  - injection E as -> ->. rewrite String.eqb_refl. reflexivity.
  - destruct (String.eqb_spec n name) as [-> | N].
    + exfalso. apply Hn. change name with (fst (name, f)).
      apply in_map, Hin.
    + apply IH; assumption.
Qed.

(** Under a well-formed table, the text written for a binding made by
    the reader is not empty, and the reader makes the same binding from
    it. *)
Lemma key_text_readable (k : t_gui_key) :
  key_functions_wf ->
  key_readable k ->
  exists t,
    key_text k = Some t /\ string_is_empty t = false /\
    gui_keyboard_new (key_key k) t = k.
Proof.
  intros [ND F] (v & Hv & E).
  unfold gui_keyboard_new in E.
  destruct (split_first_space v) as [word args] eqn:S.
  destruct (gui_keyboard_function_search_by_name word) as [f | ] eqn:N.
  - destruct (search_by_ptr_of_name _ _ N) as (n' & P & Hin).
    assert (Fn : is_field " " n' = true).
    { rewrite Forall_forall in F. apply (F _ Hin). }
    pose proof Fn as Fn'. apply andb_true_iff in Fn' as [Hne Hns].
    apply negb_true_iff in Hne.
    destruct (split_first_space_word _ Hns) as [S1 S2].
    assert (N' : gui_keyboard_function_search_by_name n' = Some f)
      by (apply search_by_name_of_entry; assumption).
    unfold key_text. rewrite E. cbn [key_function key_args key_key].
    rewrite P. eexists. split; [reflexivity | ].
    unfold key_function_text. split.
    + rewrite append_empty, Hne. reflexivity.
    + unfold gui_keyboard_new. destruct args as [a | ].
      * rewrite S2, N'. reflexivity.
      * cbn [append]. rewrite append_nil_r, S1, N'. reflexivity.
  - unfold key_text. rewrite E. cbn [key_function key_command key_key].
    exists v. split; [reflexivity | ]. split; [exact Hv | ].
    unfold gui_keyboard_new. rewrite S, N. reflexivity.
Qed.

Lemma gui_keyboard_new_key (key v : string) :
  key_key (gui_keyboard_new key v) = key.
Proof.
  unfold gui_keyboard_new. destruct (split_first_space v) as [w a].
  destruct (gui_keyboard_function_search_by_name w); reflexivity.
Qed.

Lemma gui_keyboard_new_readable (key v : string) :
  string_is_empty v = false -> key_readable (gui_keyboard_new key v).
Proof.
  intros H. exists v. rewrite gui_keyboard_new_key. auto.
Qed.

Lemma unbind_absent (key : string) (keys : list t_gui_key) :
  ~ In key (map key_key keys) ->
  filter (fun k => negb (String.eqb (key_key k) key)) keys = keys.
Proof.
  intros H. apply ListFacts.filter_all. intros k Hk.
  apply negb_true_iff, String.eqb_neq. intros E. apply H.
  rewrite <- E. apply in_map, Hk.
Qed.

Lemma unbind_removes (key : string) (keys : list t_gui_key) :
  ~ In key
      (map key_key (filter (fun k => negb (String.eqb (key_key k) key)) keys)).
Proof.
  intros H. apply in_map_iff in H as (k & E & Hin).
  apply filter_In in Hin as [_ Hk].
  rewrite E, String.eqb_refl in Hk. discriminate.
Qed.

Lemma read_key_nonempty (key v : string) (st : State) :
  string_is_empty v = false ->
  config_weechat_read_key (Some key) (Some v) st = gui_keyboard_bind key v st.
Proof. intros H. unfold config_weechat_read_key. rewrite H. reflexivity. Qed.



(** Whatever lines are read, the bindings stay readable with distinct
    keys, and only [gui_keys] changes. *)
Lemma read_keys_invariant (lines : list (string * string)) :
  forall st,
    Forall key_readable (gui_keys st) ->
    NoDup (map key_key (gui_keys st)) ->
    exists keys,
      config_file_read_section config_weechat_read_key lines st =
      set_gui_keys keys st /\
      Forall key_readable keys /\ NoDup (map key_key keys).
Proof.
  induction lines as [| [name v] lines IH]; intros st R ND.
  - exists (gui_keys st). cbn. rewrite set_gui_keys_same. auto.
  - rewrite read_section_cons. cbn [fst snd].
    pose (rest := filter (fun k => negb (String.eqb (key_key k) name)) (gui_keys st)).
    assert (Rr : Forall key_readable rest).
    { apply Forall_forall. intros k Hk. apply filter_In in Hk as [Hk _].
      rewrite Forall_forall in R. apply R, Hk. }
    assert (NDr : NoDup (map key_key rest)) by (apply ListFacts.NoDup_map_filter, ND).
    assert (C : config_weechat_read_key (Some name) (Some v) st =
                if string_is_empty v then gui_keyboard_unbind name st
                else gui_keyboard_bind name v st).
    { unfold config_weechat_read_key. destruct (string_is_empty v); reflexivity. }
    rewrite C. destruct (string_is_empty v) eqn:Ev.
    + destruct (IH (gui_keyboard_unbind name st)) as (keys & E & R' & ND');
        [exact Rr | exact NDr | ].
      exists keys. split; [ | split; assumption].
      rewrite E. reflexivity.
    + destruct (IH (gui_keyboard_bind name v st)) as (keys & E & R' & ND').
      * cbn. apply Forall_app. split; [exact Rr | ].
        constructor; [ | constructor].
        apply gui_keyboard_new_readable, Ev.
      * cbn. rewrite map_app. cbn. apply ListFacts.NoDup_snoc; [exact NDr | ].
        rewrite gui_keyboard_new_key. apply unbind_removes.
      * exists keys. split; [ | split; assumption].
        rewrite E. reflexivity.
Qed.



End KeysFacts.

(** ** Structured sections: the claims *)

Section StructuredSections.

Context {ext : Externals}.

Import StringFacts.

(** C6.  A line of the Bars section whose value does not explode into
    exactly five fields, or whose third field is not a base-10 integer,
    creates no bar: [config_weechat_read_bar] returns the state it was
    given, so the record set is unchanged.  The function returns nothing
    else, hence no error. *)
Theorem config_weechat_read_bar_discards_malformed
  (name value : string) (st : State) :
  List.length (string_explode value ";") <> 5%nat \/
  is_base10_integer (nth 2 (string_explode value ";") EmptyString) = false ->
  config_weechat_read_bar (Some name) (Some value) st = st.
Proof.
  intros H. unfold config_weechat_read_bar.
  destruct (negb (string_is_empty value)); [ | reflexivity].
  pose proof (string_explode_fields value ";") as F.
  destruct (string_explode value ";")
    as [| a0 [| a1 [| a2 [| a3 [| a4 [| a5 l]]]]]];
    try reflexivity;
    try match goal with
        | |- (if ?c then _ else _) = _ => destruct c; reflexivity
        end.
  cbn [List.length]. change (Z.of_nat 5 =? 5) with true. cbv beta iota zeta.
  destruct H as [H | H]; [cbn in H; congruence | ].
  cbn [nth] in H.
  assert (Ne : a2 <> EmptyString).
  { inversion F as [| ? ? _ F1]; subst. inversion F1 as [| ? ? _ F2]; subst.
    inversion F2 as [| ? ? Fa _]; subst.
    intros ->. discriminate. }
  pose proof (CLibFacts.strtol_rejects a2 Ne H) as R.
  destruct (strtol a2) as [number error]. cbn [snd] in R. rewrite R.
  reflexivity.
Qed.

(** C9.  The Keys writer prints the header of the section and then, for
    each binding of [gui_keys] in order, the lines of that binding: no
    line at all for a binding whose function pointer has no name, and
    exactly one line for any other binding, quoted, holding the name of
    the function with its arguments or the command. *)
Theorem config_weechat_write_keys_lines
  (config_file : list t_config_line) (section_name : string) (st : State) :
  config_weechat_write_keys config_file section_name st =
    config_file ++ (section_name, None) :: flat_map key_lines (gui_keys st) /\
  forall k,
    (key_unresolved k -> key_lines k = []) /\
    (forall function function_name,
        key_function k = Some function ->
        gui_keyboard_function_search_by_ptr function = Some function_name ->
        key_lines k =
        [(key_write_name k,
          Some (dquote ++ key_function_text function_name (key_args k) ++
                dquote)%string)]) /\
    (key_function k = None ->
     key_lines k =
     [(key_write_name k,
       Some (dquote ++ key_command_text (key_command k) ++ dquote)%string)]).
Proof.
  split.
  - unfold config_weechat_write_keys, config_file_write_line.
    rewrite write_keys_loop_spec, <- app_assoc. reflexivity.
  - intros k. unfold key_lines, key_text. repeat split.
    + intros (f & Hf & Hn). rewrite Hf, Hn. reflexivity.
    + intros f n Hf Hn. rewrite Hf, Hn. reflexivity.
    + intros Hf. rewrite Hf. reflexivity.
Qed.

(** C5.  For a key sequence [name] given to the Keys reader: with an
    empty value the bindings of the sequence are removed and the others
    kept (nothing changes when there was none), and the writer then
    prints lines for the other bindings only; with a value that is not
    empty the sequence is bound to that value, in place of any binding
    it had, the other bindings being kept. *)
Theorem config_weechat_read_key_binds
  (name v : string) (st : State) :
  let st' := config_weechat_read_key (Some name) (Some v) st in
  let others :=
    filter (fun k => negb (String.eqb (key_key k) name)) (gui_keys st) in
  ~ In name (map key_key others) /\
  (v = EmptyString ->
     st' = set_gui_keys others st /\
     (~ In name (map key_key (gui_keys st)) -> st' = st) /\
     forall config_file section_name,
       config_weechat_write_keys config_file section_name st' =
       config_file ++ (section_name, None) :: flat_map key_lines others) /\
  (v <> EmptyString ->
     st' = set_gui_keys (others ++ [gui_keyboard_new name v]) st /\
     key_key (gui_keyboard_new name v) = name /\
     match gui_keyboard_function_search_by_name (fst (split_first_space v)) with
     | Some function =>
         gui_keyboard_new name v =
         {| key_key := name; key_command := None;
            key_function := Some function;
            key_args := snd (split_first_space v) |}
     | None =>
         gui_keyboard_new name v =
         {| key_key := name; key_command := Some v;
            key_function := None; key_args := None |}
     end).
Proof.
  cbv zeta. split; [apply unbind_removes | split].
  - intros ->. unfold config_weechat_read_key. cbn [string_is_empty negb].
    unfold gui_keyboard_unbind. split; [reflexivity | split].
    + intros H. rewrite (unbind_absent _ _ H). apply set_gui_keys_same.
    + intros config_file section_name.
      unfold config_weechat_write_keys, config_file_write_line.
      rewrite write_keys_loop_spec, <- app_assoc. reflexivity.
  - intros Hv.
    assert (E : string_is_empty v = false)
      by (destruct v; [exfalso; apply Hv; reflexivity | reflexivity]).
    rewrite (read_key_nonempty _ _ _ E). split; [ | split].
    + unfold gui_keyboard_bind, gui_keyboard_unbind. reflexivity.
    + apply gui_keyboard_new_key.
    + unfold gui_keyboard_new. destruct (split_first_space v) as [w a].
      cbn [fst snd]. destruct (gui_keyboard_function_search_by_name w);
        reflexivity.
Qed.


End StructuredSections.

Lemma config_weechat_read_bar_discards_malformed_witness :
  config_weechat_read_bar (ext := sample_externals) (Some "bad"%string)
    (Some "root;top;x;1;[time]"%string) startup_state = startup_state.
Proof.
  apply (config_weechat_read_bar_discards_malformed (ext := sample_externals)
           "bad" "root;top;x;1;[time]" startup_state).
  right. reflexivity.
Defined.

Lemma config_weechat_write_keys_lines_witness :
  key_lines (ext := sample_externals)
    {| key_key := "meta-x"; key_command := None;
       key_function := Some 4242; key_args := None |} = [].
Proof.
  apply (config_weechat_write_keys_lines (ext := sample_externals)
           [] "keys" startup_state).
  exists 4242. split; reflexivity.
Defined.

Lemma config_weechat_read_key_binds_witness :
  config_weechat_read_key (ext := sample_externals)
    (Some "ctrl-c"%string) (Some ""%string)
    (config_weechat_read_key (ext := sample_externals)
       (Some "ctrl-c"%string) (Some "/foo"%string) startup_state)
  = startup_state.
Proof.
  apply (config_weechat_read_key_binds (ext := sample_externals)
           "ctrl-c" ""
           (config_weechat_read_key (ext := sample_externals)
              (Some "ctrl-c"%string) (Some "/foo"%string) startup_state)).
  reflexivity.
Defined.

Lemma sample_key_functions_wf : key_functions_wf (ext := sample_externals).
Proof.
  split.
  - cbn. repeat constructor; cbn; intuition discriminate.
  - repeat constructor.
Qed.



(** Scenario B of the specification: the bar line of "mybar" makes the
    bar it describes, and the writer prints the same line for it. *)
Example scenario_b :
  let st := config_weechat_read_bar (ext := sample_externals)
              (Some "mybar"%string) (Some "root;top;1;1;[time]"%string)
              startup_state in
  gui_bars st =
    [{| bar_name := "mybar"; bar_type := 0; bar_position := 1; bar_size := 1;
        bar_separator := 1; bar_items := "[time]" |}] /\
  config_weechat_write_bars (ext := sample_externals) [] "bars" st =
    [("bars"%string, None);
     ("mybar"%string, Some "root;top;1;1;[time]"%string)].
Proof. split; reflexivity. Qed.

(** Scenario C of the specification: an empty value removes the binding
    of ctrl-c, and the writer prints no line for it. *)
Example scenario_c :
  let st := config_file_read_section
              (config_weechat_read_key (ext := sample_externals))
              [("ctrl-c", "/foo"); ("meta-a", "return"); ("ctrl-c", "")]%string
              startup_state in
  map key_key (gui_keys st) = ["meta-a"%string] /\
  written_lines (config_weechat_write_keys (ext := sample_externals) [] "keys" st)
  = [("meta-a", dquote ++ "return" ++ dquote)]%string.
Proof. split; reflexivity. Qed.

(** ** The day-change timer *)

Module DayChangeFacts.

Lemma hook_fresh_ptr_above (hooks : list t_hook) (h : t_hook) :
  In h hooks -> hook_ptr h < hook_fresh_ptr hooks.
Proof.
  unfold hook_fresh_ptr. induction hooks as [| a hooks IH]; intros H.
  - destruct H.
  - cbn [fold_right]. destruct H as [-> | H]; [lia | ].
    specialize (IH H). lia.
Qed.

Lemma hook_fresh_ptr_fresh (hooks : list t_hook) :
  ~ In (hook_fresh_ptr hooks) (map hook_ptr hooks).
Proof.
  intros H. apply in_map_iff in H as (h & E & Hin).
  apply hook_fresh_ptr_above in Hin. lia.
Qed.

(** Removing the hook at the address of [h] from a list of hooks with
    distinct addresses removes [h] and nothing else. *)
Lemma unhook_split (l1 l2 : list t_hook) (h : t_hook) :
  NoDup (map hook_ptr (l1 ++ h :: l2)) ->
  filter (fun x => negb (hook_ptr x =? hook_ptr h)) (l1 ++ h :: l2) = l1 ++ l2.
Proof.
  intros ND. rewrite filter_app. cbn [filter]. rewrite Z.eqb_refl. cbn [negb].
  rewrite map_app in ND. cbn [map] in ND.
  pose proof (NoDup_remove_2 _ _ _ ND) as Hp.
  rewrite !ListFacts.filter_all; [reflexivity | | ];
    intros x Hx; apply negb_true_iff, Z.eqb_neq; intros E; apply Hp;
    apply in_or_app; [right | left]; rewrite <- E; apply in_map, Hx.
Qed.

(** Under the invariant, an armed handle points to a hook of the list,
    which is a day-change timer, and no other hook is one. *)
Lemma armed_timer_split (st : State) (p : Z) :
  day_change_timer_invariant st ->
  config_day_change_timer st = Some p ->
  exists l1 h l2,
    weechat_hooks st = l1 ++ h :: l2 /\ hook_ptr h = p /\
    is_day_change_timer h = true /\
    filter is_day_change_timer (l1 ++ l2) = [].
Proof.
  intros [ND T] Hp. rewrite Hp in T. cbn in T. unfold day_change_timers in T.
  destruct (filter is_day_change_timer (weechat_hooks st)) as [| h [| h' l]] eqn:F;
    try discriminate.
  injection T as T.
  assert (Hin : In h (filter is_day_change_timer (weechat_hooks st)))
    by (rewrite F; left; reflexivity).
  apply filter_In in Hin as [Hin Hd].
  destruct (in_split _ _ Hin) as (l1 & l2 & E).
  exists l1, h, l2. repeat split; try assumption.
  rewrite E, filter_app in F. cbn [filter] in F. rewrite Hd in F.
  rewrite filter_app.
  destruct (filter is_day_change_timer l1) as [| a l1'].
  - cbn in F. injection F as F. rewrite F. reflexivity.
  - cbn in F. injection F as _ F. destruct l1'; discriminate.
Qed.

Lemma set_look_day_change_invariant (v : Z) (st : State) :
  day_change_timer_invariant st ->
  day_change_timer_invariant (set_look_day_change v st).
Proof. intros H. exact H. Qed.

(** The four cases of the handler. *)
Lemma config_change_day_change_cases (st : State) :
  day_change_timer_invariant st ->
  (day_change_enabled st = true ->
   forall p, config_day_change_timer st = Some p ->
             config_change_day_change st = st) /\
  (day_change_enabled st = false ->
   config_day_change_timer st = None -> config_change_day_change st = st) /\
  (day_change_enabled st = true ->
   config_day_change_timer st = None ->
   exists p,
     ~ In p (map hook_ptr (weechat_hooks st)) /\
     config_change_day_change st =
     set_config_day_change_timer (Some p)
       (set_weechat_hooks (weechat_hooks st ++ [day_change_timer_hook p]) st)) /\
  (day_change_enabled st = false ->
   forall p, config_day_change_timer st = Some p ->
   exists l1 h l2,
     weechat_hooks st = l1 ++ h :: l2 /\ hook_ptr h = p /\
     is_day_change_timer h = true /\
     filter is_day_change_timer (l1 ++ l2) = [] /\
     config_change_day_change st =
     set_config_day_change_timer None (set_weechat_hooks (l1 ++ l2) st)).
Proof.
  intros Inv. unfold day_change_enabled, config_change_day_change.
  repeat split.
  - intros E p Hp. rewrite E, Hp. reflexivity.
  - intros E Hp. rewrite E, Hp. reflexivity.
  - intros E Hp. rewrite E, Hp. exists (hook_fresh_ptr (weechat_hooks st)).
    split; [apply hook_fresh_ptr_fresh | reflexivity].
  - intros E p Hp. rewrite E, Hp.
    destruct (armed_timer_split st p Inv Hp) as (l1 & h & l2 & Eh & Ep & Hd & F).
    exists l1, h, l2. repeat split; try assumption.
    unfold unhook. rewrite Eh, <- Ep, unhook_split; [reflexivity | ].
    rewrite <- Eh. apply Inv.
Qed.

Lemma config_change_day_change_invariant (st : State) :
  day_change_timer_invariant st ->
  day_change_timer_invariant (config_change_day_change st).
Proof.
  intros Inv.
  destruct (config_change_day_change_cases st Inv) as (C1 & C2 & C3 & C4).
  destruct (day_change_enabled st) eqn:E;
    destruct (config_day_change_timer st) as [p | ] eqn:Hp.
  - rewrite (C1 eq_refl p eq_refl). exact Inv.
  - destruct (C3 eq_refl eq_refl) as (p & Fresh & ->).
    destruct Inv as [ND T]. rewrite Hp in T. cbn in T.
    split; cbn [weechat_hooks set_weechat_hooks set_config_day_change_timer
                config_day_change_timer].
    + rewrite map_app. apply ListFacts.NoDup_snoc; assumption.
    + unfold day_change_timers in *.
      cbn [weechat_hooks set_weechat_hooks set_config_day_change_timer].
      rewrite filter_app, map_app, T. reflexivity.
  - destruct (C4 eq_refl p eq_refl) as (l1 & h & l2 & Eh & Ep & Hd & F & ->).
    destruct Inv as [ND T].
    split; cbn [weechat_hooks set_weechat_hooks set_config_day_change_timer
                config_day_change_timer].
    + rewrite Eh, map_app in ND. cbn [map] in ND.
      apply NoDup_remove_1 in ND. rewrite map_app. exact ND.
    + unfold day_change_timers.
      cbn [weechat_hooks set_weechat_hooks set_config_day_change_timer].
      rewrite F. reflexivity.
  - rewrite (C2 eq_refl eq_refl). exact Inv.
Qed.

Lemma toggle_day_change_invariant (values : list Z) :
  forall st,
    day_change_timer_invariant st ->
    day_change_timer_invariant (toggle_day_change values st).
Proof.
  induction values as [| v values IH]; intros st Inv; [exact Inv | ].
  apply IH, config_change_day_change_invariant,
    set_look_day_change_invariant, Inv.
Qed.

Lemma invariant_at_most_one (st : State) :
  day_change_timer_invariant st ->
  (List.length (day_change_timers st) <= 1)%nat.
Proof.
  intros [_ T]. rewrite <- (length_map hook_ptr), T.
  destruct (config_day_change_timer st); cbn; lia.
Qed.

End DayChangeFacts.

(** C1.  From a state where the armed day-change timers are exactly the
    one the handle [config_day_change_timer] points to, any sequence of
    values given to the option, each followed by a call of the change
    handler, keeps it so, and at most one day-change timer is armed.  One
    call of the handler: enabled and armed, or disabled and not armed,
    changes nothing; enabled and not armed adds one timer, at a new
    address, of period 24 hours, and points the handle to it; disabled
    and armed removes the hook the handle points to, which was the only
    day-change timer, and clears the handle. *)
Theorem config_change_day_change_one_timer (values : list Z) (st : State) :
  day_change_timer_invariant st ->
  day_change_timer_invariant (toggle_day_change values st) /\
  (List.length (day_change_timers (toggle_day_change values st)) <= 1)%nat /\
  (day_change_enabled st = true ->
   forall p, config_day_change_timer st = Some p ->
             config_change_day_change st = st) /\
  (day_change_enabled st = false ->
   config_day_change_timer st = None -> config_change_day_change st = st) /\
  (day_change_enabled st = true ->
   config_day_change_timer st = None ->
   exists p,
     ~ In p (map hook_ptr (weechat_hooks st)) /\
     config_change_day_change st =
     set_config_day_change_timer (Some p)
       (set_weechat_hooks (weechat_hooks st ++ [day_change_timer_hook p]) st)) /\
  (day_change_enabled st = false ->
   forall p, config_day_change_timer st = Some p ->
   exists l1 h l2,
     weechat_hooks st = l1 ++ h :: l2 /\ hook_ptr h = p /\
     is_day_change_timer h = true /\
     filter is_day_change_timer (l1 ++ l2) = [] /\
     config_change_day_change st =
     set_config_day_change_timer None (set_weechat_hooks (l1 ++ l2) st)).
Proof.
  intros Inv. split; [ | split].
  - apply DayChangeFacts.toggle_day_change_invariant, Inv.
  - apply DayChangeFacts.invariant_at_most_one,
      DayChangeFacts.toggle_day_change_invariant, Inv.
  - apply DayChangeFacts.config_change_day_change_cases, Inv.
Qed.

Lemma config_change_day_change_one_timer_witness :
  (List.length
     (day_change_timers
        (toggle_day_change [1; 1; 0; 0; 1; 1]%Z
           (config_weechat_init (ext := sample_externals) startup_state)))
   <= 1)%nat.
Proof.
  apply (config_change_day_change_one_timer [1; 1; 0; 0; 1; 1]
           (config_weechat_init (ext := sample_externals) startup_state)).
  split; [constructor | reflexivity].
Defined.

(** Enabling twice in a row arms one timer; disabling twice in a row
    then leaves none. *)
Example toggle_day_change_twice :
  let st := config_weechat_init (ext := sample_externals) startup_state in
  day_change_timers (toggle_day_change [1; 1] st) = [day_change_timer_hook 1] /\
  config_day_change_timer (toggle_day_change [1; 1] st) = Some 1 /\
  weechat_hooks (toggle_day_change [1; 1; 0; 0] st) = [] /\
  config_day_change_timer (toggle_day_change [1; 1; 0; 0] st) = None.
Proof. repeat split; reflexivity. Qed.

Section DayChangeNotice.

Context {ext : Externals}.

Lemma buffer_add_line_at (done todo : list t_gui_buffer) (b : t_gui_buffer)
  (line : string) :
  buffer_add_line (List.length done) line (done ++ b :: todo) =
  done ++ {| buffer_type := buffer_type b;
             buffer_lines := buffer_lines b ++ [line] |} :: todo.
Proof.
  induction done as [| a done IH]; cbn; [ | rewrite IH]; reflexivity.
Qed.

Lemma gui_chat_printf_buffers (ptr : nat) (message : string) (st : State) :
  gui_buffers (gui_chat_printf (Some ptr) message st) =
  buffer_add_line ptr message (gui_buffers st).
Proof.
  unfold gui_chat_printf, gui_hotlist_add.
  cbn [gui_add_hotlist set_gui_buffers gui_hotlist].
  destruct (gui_add_hotlist st =? 0); [reflexivity | ].
  destruct (existsb (Nat.eqb ptr) (gui_hotlist st)); reflexivity.
Qed.

(** With [gui_add_hotlist] at 0, printing in a buffer leaves the hotlist
    and the flag as they are. *)
Lemma gui_chat_printf_hotlist_off (buffer : option nat) (message : string)
  (st : State) :
  gui_add_hotlist st = 0 ->
  gui_hotlist (gui_chat_printf buffer message st) = gui_hotlist st /\
  gui_add_hotlist (gui_chat_printf buffer message st) = 0.
Proof.
  intros H. unfold gui_chat_printf.
  cbn [gui_add_hotlist set_gui_buffers]. rewrite H. cbn. auto.
Qed.

(** The loop prints the notice in each formatted buffer it visits, once,
    and in no other buffer. *)
Lemma day_change_loop_buffers (text : string) (todo : list t_gui_buffer) :
  forall done st,
    gui_buffers st = done ++ todo ->
    gui_buffers
      (day_change_loop (seq (List.length done) (List.length todo)) text st) =
    done ++ map (buffer_with_notice text) todo.
Proof.
  induction todo as [| b todo IH]; intros done st E.
  - cbn. rewrite E. reflexivity.
  - cbn [List.length seq day_change_loop map].
    assert (N : nth_error (gui_buffers st) (List.length done) = Some b).
    { rewrite E, nth_error_app2, Nat.sub_diag by lia. reflexivity. }
    rewrite N.
    assert (L : S (List.length done) =
                List.length (done ++ [buffer_with_notice text b]))
      by (rewrite length_app; cbn; lia).
    rewrite L.
    replace (done ++ buffer_with_notice text b :: map (buffer_with_notice text) todo)
      with ((done ++ [buffer_with_notice text b]) ++
            map (buffer_with_notice text) todo)
      by (rewrite <- app_assoc; reflexivity).
    apply IH. rewrite <- app_assoc. cbn [app].
    unfold buffer_with_notice.
    destruct b as [[] lines]; cbn [buffer_type buffer_lines].
    + rewrite gui_chat_printf_buffers, E. apply buffer_add_line_at.
    + exact E.
Qed.

Lemma day_change_loop_hotlist (text : string) (ptrs : list nat) :
  forall st,
    gui_add_hotlist st = 0 ->
    gui_hotlist (day_change_loop ptrs text st) = gui_hotlist st /\
    gui_add_hotlist (day_change_loop ptrs text st) = 0.
Proof.
  induction ptrs as [| p ptrs IH]; intros st H; [cbn; auto | ].
  cbn [day_change_loop].
  destruct (nth_error (gui_buffers st) p) as [[[] lines] | ].
  - destruct (gui_chat_printf_hotlist_off (Some p) (day_changed_message text) st H)
      as [Hh Hf].
    destruct (IH _ Hf) as [Hh' Hf']. rewrite Hh', Hh. auto.
  - apply IH, H.
  - apply IH, H.
Qed.

Lemma day_change_loop_frame (text : string) (ptrs : list nat) :
  forall st,
    gui_add_hotlist st = 0 ->
    exists buffers, day_change_loop ptrs text st = set_gui_buffers buffers st.
Proof.
  induction ptrs as [| p ptrs IH]; intros st H.
  - exists (gui_buffers st). destruct st; reflexivity.
  - cbn [day_change_loop].
    destruct (nth_error (gui_buffers st) p) as [[[] lines] | ];
      try (apply IH, H).
    destruct (gui_chat_printf_hotlist_off (Some p) (day_changed_message text) st H)
      as [_ Hf].
    destruct (IH _ Hf) as [buffers E]. exists buffers. rewrite E.
    unfold gui_chat_printf. cbn [gui_add_hotlist set_gui_buffers].
    rewrite H. reflexivity.
Qed.

(** C8.  A firing of the day-change timer at time [tv_sec] adds to each
    formatted buffer exactly one line, the notice "Day changed to"
    followed by the time formatted with the value of the option
    [look_day_change_time_format] (converted to the internal charset when
    the conversion gives a text), and leaves every other buffer as it
    was; it returns [WEECHAT_RC_OK]. *)
Theorem config_day_change_timer_cb_notice (tv_sec : Z) (st : State) :
  let text_time :=
    strftime 1024 (CONFIG_STRING (config_look_day_change_time_format st))
      (localtime tv_sec) in
  let text :=
    match string_iconv_to_internal text_time with
    | Some text_time2 => text_time2
    | None => text_time
    end in
  fst (config_day_change_timer_cb tv_sec st) = WEECHAT_RC_OK /\
  gui_buffers (snd (config_day_change_timer_cb tv_sec st)) =
  map (fun b =>
         match buffer_type b with
         | GUI_BUFFER_TYPE_FORMATED =>
             {| buffer_type := GUI_BUFFER_TYPE_FORMATED;
                buffer_lines :=
                  buffer_lines b ++
                  [(tab ++ tab ++ "Day changed to " ++ text)%string] |}
         | GUI_BUFFER_TYPE_FREE => b
         end) (gui_buffers st).
Proof.
  cbv zeta. split; [reflexivity | ].
  unfold config_day_change_timer_cb. cbn [snd].
  cbn [gui_buffers set_gui_add_hotlist].
  rewrite (day_change_loop_buffers _ (gui_buffers st) [] (set_gui_add_hotlist 0 st))
    by reflexivity.
  cbn [app]. apply map_ext. intros b. unfold buffer_with_notice.
  destruct b as [[] lines]; reflexivity.
Qed.

(** C10.  A firing of the day-change timer leaves the hotlist as it was:
    [gui_add_hotlist] is 0 while the notices are printed, so no buffer
    enters the hotlist, and it is 1 when the callback returns.  With the
    buffers, which receive the notices, the flag is the only global the
    callback changes. *)
Theorem config_day_change_timer_cb_hotlist (tv_sec : Z) (st : State) :
  gui_hotlist (snd (config_day_change_timer_cb tv_sec st)) = gui_hotlist st /\
  gui_add_hotlist (snd (config_day_change_timer_cb tv_sec st)) = 1 /\
  snd (config_day_change_timer_cb tv_sec st) =
  set_gui_add_hotlist 1
    (set_gui_buffers
       (map (buffer_with_notice (day_change_text tv_sec st)) (gui_buffers st))
       st).
Proof.
  unfold config_day_change_timer_cb. cbn [snd].
  fold (day_change_text tv_sec st).
  set (loop := day_change_loop _ _ _).
  assert (Hh : gui_hotlist loop = gui_hotlist st /\ gui_add_hotlist loop = 0).
  { subst loop. apply (day_change_loop_hotlist _ _ (set_gui_add_hotlist 0 st)).
    reflexivity. }
  split; [apply Hh | split; [reflexivity | ]].
  assert (Hb : gui_buffers loop =
               map (buffer_with_notice (day_change_text tv_sec st)) (gui_buffers st)).
  { subst loop.
    apply (day_change_loop_buffers _ (gui_buffers st) [] (set_gui_add_hotlist 0 st)).
    reflexivity. }
  destruct (day_change_loop_frame (day_change_text tv_sec st)
              (seq 0 (List.length (gui_buffers (set_gui_add_hotlist 0 st))))
              (set_gui_add_hotlist 0 st) eq_refl) as [buffers E].
  fold loop in E. rewrite E in Hb |- *. cbn [gui_buffers set_gui_buffers] in Hb.
  rewrite Hb. reflexivity.
Qed.

End DayChangeNotice.

(** ** Reload *)

Section ReloadFacts.

Context {ext : Externals}.

(** The Bars reader only adds bars, after those there are. *)
Lemma read_bars_extend (lines : list (string * string)) :
  forall st,
    exists new_bars,
      config_file_read_section config_weechat_read_bar lines st =
      set_gui_bars (gui_bars st ++ new_bars) st.
Proof.
  induction lines as [| [name v] lines IH]; intros st.
  - exists []. cbn. rewrite app_nil_r. symmetry. apply set_gui_bars_same.
  - rewrite read_section_cons. cbn [fst snd].
    destruct (config_weechat_read_bar_cases name v st)
      as [E | (b & _ & _ & _ & E)]; rewrite E.
    + apply IH.
    + destruct (IH (set_gui_bars (gui_bars st ++ [b]) st)) as [new_bars E'].
      exists (b :: new_bars). rewrite E'. cbn [gui_bars set_gui_bars].
      rewrite <- app_assoc. reflexivity.
Qed.

Lemma read_key_keys (name v : string) (st1 st2 : State) :
  gui_keys st1 = gui_keys st2 ->
  gui_keys (config_weechat_read_key (Some name) (Some v) st1) =
  gui_keys (config_weechat_read_key (Some name) (Some v) st2).
Proof.
  intros E. unfold config_weechat_read_key, gui_keyboard_bind,
    gui_keyboard_unbind.
  destruct (negb (string_is_empty v)); cbn [gui_keys set_gui_keys];
    rewrite E; reflexivity.
Qed.

(** The bindings the Keys reader leaves depend on the lines and on the
    bindings it starts from, and on nothing else. *)
Lemma read_keys_determined (lines : list (string * string)) :
  forall st1 st2,
    gui_keys st1 = gui_keys st2 ->
    gui_keys (config_file_read_section config_weechat_read_key lines st1) =
    gui_keys (config_file_read_section config_weechat_read_key lines st2).
Proof.
  induction lines as [| [name v] lines IH]; intros st1 st2 E; [exact E | ].
  rewrite !read_section_cons. apply IH, read_key_keys, E.
Qed.

(** C2, as amended.  [config_weechat_reload] hands to the re-reading of
    the file the state it was given with every key binding released: the
    re-read starts with no key binding, and with the bars it was given,
    which are not released.  So when the re-read gives the lines of the
    file to the readers of the sections, the key bindings after the
    reload are those of the file alone, and the bars after the reload
    are all the bars of before, followed by those the file adds. *)
Theorem config_weechat_reload_teardown
  (config_file_reload : State -> Z * State)
  (bar_lines key_lines_in : list (string * string)) (st : State) :
  let reread s :=
    (0, config_file_read_section config_weechat_read_key key_lines_in
          (config_file_read_section config_weechat_read_bar bar_lines s)) in
  config_weechat_reload config_file_reload st =
    config_file_reload (set_gui_keys [] st) /\
  gui_keys (set_gui_keys [] st) = [] /\
  gui_bars (set_gui_keys [] st) = gui_bars st /\
  gui_keys (snd (config_weechat_reload reread st)) =
    gui_keys (config_file_read_section config_weechat_read_key key_lines_in
                startup_state) /\
  exists new_bars,
    gui_bars (snd (config_weechat_reload reread st)) = gui_bars st ++ new_bars.
Proof.
  cbv zeta. split; [reflexivity | split; [reflexivity | split; [reflexivity | ]]].
  unfold config_weechat_reload, gui_keyboard_free_all. cbn [snd].
  destruct (read_bars_extend bar_lines (set_gui_keys [] st)) as [new_bars E].
  rewrite E.
  set (s1 := set_gui_bars (gui_bars (set_gui_keys [] st) ++ new_bars)
               (set_gui_keys [] st)).
  split.
  - apply read_keys_determined. reflexivity.
  - exists new_bars.
    destruct (read_keys_invariant key_lines_in s1) as (keys & E' & _);
      [constructor | constructor | ].
    rewrite E'. reflexivity.
Qed.

End ReloadFacts.

(** C2 as stated fails for the bars: with one bar and one key binding
    defined, the state a reload starts re-reading from has no key
    binding left and still has the bar. *)
Lemma config_weechat_reload_keeps_bars :
  let st :=
    config_weechat_read_key (ext := sample_externals)
      (Some "ctrl-c"%string) (Some "/foo"%string)
      (config_weechat_read_bar (ext := sample_externals)
         (Some "mybar"%string) (Some "root;top;1;1;[time]"%string)
         startup_state) in
  gui_keys st <> [] /\ gui_bars st <> [] /\
  gui_keys (snd (config_weechat_reload (fun s => (0, s)) st)) = [] /\
  gui_bars (snd (config_weechat_reload (fun s => (0, s)) st)) =
    [{| bar_name := "mybar"; bar_type := 0; bar_position := 1; bar_size := 1;
        bar_separator := 1; bar_items := "[time]" |}] /\
  gui_bars (snd (config_weechat_reload (fun s => (0, s)) st)) <> [].
Proof. cbv zeta. repeat split; cbn; discriminate. Qed.

(** ** The option registry *)

Section OptionRegistry.

Context {ext : Externals}.

Lemma gui_chat_printf_fired (buffer : option nat) (message : string)
  (st : State) :
  callbacks_fired (gui_chat_printf buffer message st) = callbacks_fired st.
Proof.
  unfold gui_chat_printf, gui_hotlist_add.
  cbn [gui_add_hotlist set_gui_buffers gui_hotlist].
  destruct (gui_add_hotlist st =? 0); [reflexivity | ].
  destruct (existsb _ (gui_hotlist st)); reflexivity.
Qed.

(** A change callback invokes no change callback. *)
Lemma run_change_callback_fired (cb : t_change_callback) (st : State) :
  callbacks_fired (run_change_callback cb st) = callbacks_fired st.
Proof.
  destruct cb; cbn [run_change_callback]; try reflexivity.
  - unfold config_change_save_on_exit.
    destruct (config_look_save_on_exit st); [reflexivity | ].
    apply gui_chat_printf_fired.
  - unfold config_change_title.
    destruct (config_look_set_title st); reflexivity.
  - unfold config_change_color. destruct (gui_ok st =? 0); reflexivity.
  - unfold config_change_infobar_seconds.
    destruct (gui_infobar_refresh_timer st); reflexivity.
  - unfold config_change_day_change.
    destruct (negb (CONFIG_BOOLEAN (config_look_day_change st) =? 0));
      destruct (config_day_change_timer st); reflexivity.
Qed.

(** A change callback changes no option and leaves [gui_ok] alone. *)
Lemma run_change_callback_options (cb : t_change_callback) (st : State) :
  weechat_config_options (run_change_callback cb st) =
  weechat_config_options st.
Proof.
  destruct cb; cbn [run_change_callback]; try reflexivity.
  - unfold config_change_save_on_exit, gui_chat_printf, gui_hotlist_add.
    destruct (config_look_save_on_exit st); [reflexivity | ].
    cbn [gui_add_hotlist set_gui_buffers gui_hotlist].
    destruct (gui_add_hotlist st =? 0); [reflexivity | ].
    destruct (existsb _ (gui_hotlist st)); reflexivity.
  - unfold config_change_title.
    destruct (config_look_set_title st); reflexivity.
  - unfold config_change_color. destruct (gui_ok st =? 0); reflexivity.
  - unfold config_change_infobar_seconds.
    destruct (gui_infobar_refresh_timer st); reflexivity.
  - unfold config_change_day_change.
    destruct (negb (CONFIG_BOOLEAN (config_look_day_change st) =? 0));
      destruct (config_day_change_timer st); reflexivity.
Qed.

Lemma run_change_callback_gui_ok (cb : t_change_callback) (st : State) :
  gui_ok (run_change_callback cb st) = gui_ok st.
Proof.
  destruct cb; cbn [run_change_callback]; try reflexivity.
  - unfold config_change_save_on_exit, gui_chat_printf, gui_hotlist_add.
    destruct (config_look_save_on_exit st); [reflexivity | ].
    cbn [gui_add_hotlist set_gui_buffers gui_hotlist].
    destruct (gui_add_hotlist st =? 0); [reflexivity | ].
    destruct (existsb _ (gui_hotlist st)); reflexivity.
  - unfold config_change_title.
    destruct (config_look_set_title st); reflexivity.
  - unfold config_change_color. destruct (gui_ok st =? 0); reflexivity.
  - unfold config_change_infobar_seconds.
    destruct (gui_infobar_refresh_timer st); reflexivity.
  - unfold config_change_day_change.
    destruct (negb (CONFIG_BOOLEAN (config_look_day_change st) =? 0));
      destruct (config_day_change_timer st); reflexivity.
Qed.

(** One run of a change callback makes the calls of its body into the
    rendering layer, in order, after the calls made before. *)
Lemma run_change_callback_calls (cb : t_change_callback) (st : State) :
  gui_calls (run_change_callback cb st) =
  gui_calls st ++ callback_gui_calls cb st.
Proof.
  destruct cb; cbn [run_change_callback callback_gui_calls];
    try reflexivity.
  - unfold config_change_save_on_exit, gui_chat_printf, gui_hotlist_add.
    rewrite app_nil_r.
    destruct (config_look_save_on_exit st); [reflexivity | ].
    cbn [gui_add_hotlist set_gui_buffers gui_hotlist].
    destruct (gui_add_hotlist st =? 0); [reflexivity | ].
    destruct (existsb _ (gui_hotlist st)); reflexivity.
  - unfold config_change_title.
    destruct (config_look_set_title st); reflexivity.
  - unfold config_change_buffer_time_format, gui_call.
    cbn [gui_calls set_gui_calls]. rewrite <- !app_assoc. reflexivity.
  - unfold config_change_color.
    destruct (gui_ok st =? 0); [rewrite app_nil_r; reflexivity | ].
    unfold gui_call. cbn [gui_calls set_gui_calls].
    rewrite <- !app_assoc. reflexivity.
  - rewrite app_nil_r. reflexivity.
  - unfold config_change_infobar_seconds.
    destruct (gui_infobar_refresh_timer st); reflexivity.
  - unfold config_change_day_change. rewrite app_nil_r.
    destruct (negb (CONFIG_BOOLEAN (config_look_day_change st) =? 0));
      destruct (config_day_change_timer st); reflexivity.
Qed.

(** The calls of a callback are the same before and after the run of a
    callback: they depend on the options and on [gui_ok] only. *)
Lemma callback_gui_calls_run (cb cb' : t_change_callback) (st : State) :
  callback_gui_calls cb (run_change_callback cb' st) =
  callback_gui_calls cb st.
Proof.
  unfold callback_gui_calls, config_look_set_title,
    config_look_buffer_time_format, config_file_search_option.
  rewrite run_change_callback_options, run_change_callback_gui_ok.
  reflexivity.
Qed.

(** The handler of [look_day_change] leaves the timer armed exactly when
    the option asks for it. *)
Lemma config_change_day_change_armed (st : State) :
  config_day_change_timer (config_change_day_change st) <> None <->
  day_change_enabled st = true.
Proof.
  unfold config_change_day_change, day_change_enabled.
  destruct (negb (CONFIG_BOOLEAN (config_look_day_change st) =? 0));
    destruct (config_day_change_timer st) as [h | ] eqn:T;
    cbn [hook_timer config_day_change_timer set_config_day_change_timer
         unhook set_weechat_hooks];
    try rewrite T; split; intros H; congruence.
Qed.

(** The handler of [look_infobar_seconds] leaves one timer of the period
    of the option armed, under its handle. *)
Lemma config_change_infobar_seconds_armed (st : State) :
  exists p,
    gui_infobar_refresh_timer (config_change_infobar_seconds st) = Some p /\
    In (infobar_timer_hook p (infobar_seconds st))
       (weechat_hooks (config_change_infobar_seconds st)).
Proof.
  unfold config_change_infobar_seconds, infobar_seconds, infobar_timer_hook.
  destruct (gui_infobar_refresh_timer st) as [h | ];
    cbn [hook_timer unhook gui_call gui_infobar_refresh_timer
         set_gui_infobar_refresh_timer set_gui_calls set_weechat_hooks
         weechat_hooks];
    eexists; (split; [reflexivity | ]);
    apply in_or_app; right; left; reflexivity.
Qed.

Lemma option_store_other (name n : string) (v : t_config_value)
  (options : list t_config_option) :
  n <> name ->
  find (fun o' => String.eqb (option_name o') n) (option_store name v options)
  = find (fun o' => String.eqb (option_name o') n) options.
Proof.
  intros N. induction options as [| a options IH]; [reflexivity | ].
  cbn [option_store].
  destruct (String.eqb_spec (option_name a) name) as [E | E].
  - cbn [find option_with_value option_name].
    destruct (String.eqb_spec (option_name a) n) as [E' | _];
      [congruence | reflexivity].
  - cbn [find]. rewrite IH. reflexivity.
Qed.

Lemma option_store_search (name : string) (v : t_config_value)
  (options : list t_config_option) (o : t_config_option) :
  find (fun o' => String.eqb (option_name o') name) options = Some o ->
  find (fun o' => String.eqb (option_name o') name) (option_store name v options)
  = Some (option_with_value v o).
Proof.
  induction options as [| a options IH]; intros H; [discriminate | ].
  cbn [find option_store] in *.
  destruct (String.eqb (option_name a) name) eqn:E.
  - injection H as <-. cbn [find option_with_value option_name].
    rewrite E. reflexivity.
  - cbn [find]. rewrite E. apply IH, H.
Qed.

(** C4.  For an option of type integer with a range, a text that is not
    a base-10 integer, or whose value is outside the range, is refused:
    [set] reports [InvalidValue] and returns the state it was given, so
    the stored value is the one before and no callback has run. *)
Theorem config_file_option_set_integer_invalid
  (name raw : string) (st : State) (o : t_config_option) :
  config_file_search_option name st = Some o ->
  option_type o = CONFIG_OPTION_INTEGER ->
  option_string_values o = None ->
  parse_integer raw = None \/
  (exists n, parse_integer raw = Some n /\
             (n < option_min o \/ option_max o < n)) ->
  config_file_option_set name raw st = (InvalidValue, st).
Proof.
  intros Hs Ht Hv H. unfold config_file_option_set, option_validate.
  rewrite Hs, Ht, Hv.
  destruct H as [-> | (n & -> & R)]; [reflexivity | ].
  destruct (option_min o <=? n) eqn:E1; [ | reflexivity].
  destruct (n <=? option_max o) eqn:E2; [ | reflexivity].
  apply Z.leb_le in E1, E2. lia.
Qed.

(** C7.  For an option that carries a change callback, [set] either
    accepts the text and reports [SetOk], or refuses it and reports
    [InvalidValue].  When it accepts, the option holds the new value and
    is otherwise the option it was, the other options are as they were,
    and the state returned is the one the callback leaves when it is
    called once in the state that holds the new value: the rendering
    layer has received the calls of one run of the body of the callback,
    in order, after the calls it had received, computed from the new
    value; after the handler of [look_day_change] the day-change timer is
    armed exactly when the committed value asks for it; after the
    handler of [look_infobar_seconds] a timer of the committed period is
    armed under its handle; and one invocation is recorded.  When it
    refuses, the state returned is the state given: no value is stored,
    no call is made and no timer changes. *)
Theorem config_file_option_set_callback_once
  (name raw : string) (st : State) (o : t_config_option)
  (cb : t_change_callback) :
  config_file_search_option name st = Some o ->
  option_callback_change o = Some cb ->
  (exists v committed st',
      option_validate o raw = Some v /\
      config_file_option_set name raw st = (SetOk, st') /\
      committed =
        set_callbacks_fired (callbacks_fired st ++ [cb])
          (set_weechat_config_options
             (option_store name v (weechat_config_options st)) st) /\
      config_file_search_option name committed = Some (option_with_value v o) /\
      st' = run_change_callback cb committed /\
      (exists o',
          config_file_search_option name st' = Some o' /\
          option_value o' = v /\
          option_name o' = option_name o /\
          option_type o' = option_type o /\
          option_string_values o' = option_string_values o /\
          option_min o' = option_min o /\
          option_max o' = option_max o /\
          option_default_value o' = option_default_value o /\
          option_callback_change o' = Some cb) /\
      (forall n, n <> name ->
                 config_file_search_option n st' =
                 config_file_search_option n st) /\
      gui_calls st' = gui_calls st ++ callback_gui_calls cb st' /\
      (cb = cb_config_change_day_change ->
       (config_day_change_timer st' <> None <->
        day_change_enabled st' = true)) /\
      (cb = cb_config_change_infobar_seconds ->
       exists p,
         gui_infobar_refresh_timer st' = Some p /\
         In (infobar_timer_hook p (infobar_seconds st')) (weechat_hooks st')) /\
      callbacks_fired st' = callbacks_fired st ++ [cb]) \/
  (option_validate o raw = None /\
   config_file_option_set name raw st = (InvalidValue, st) /\
   callbacks_fired (snd (config_file_option_set name raw st)) =
     callbacks_fired st).
Proof.
  intros Hs Hc. unfold config_file_option_set. rewrite Hs.
  destruct (option_validate o raw) as [v | ]; [ | right; repeat split].
  left. rewrite Hc.
  set (committed :=
         set_callbacks_fired (callbacks_fired st ++ [cb])
           (set_weechat_config_options
              (option_store name v (weechat_config_options st)) st)).
  assert (Stored : config_file_search_option name committed =
                   Some (option_with_value v o)).
  { unfold config_file_search_option in *. apply option_store_search, Hs. }
  assert (Options : forall n,
             config_file_search_option n (run_change_callback cb committed) =
             config_file_search_option n committed).
  { intros n. unfold config_file_search_option.
    rewrite run_change_callback_options. reflexivity. }
  exists v, committed, (run_change_callback cb committed).
  repeat match goal with |- _ /\ _ => split end; try reflexivity.
  - exact Stored.
  - exists (option_with_value v o). rewrite Options.
    repeat split; [exact Stored | exact Hc].
  - intros n N. rewrite Options. unfold config_file_search_option.
    apply option_store_other, N.
  - rewrite run_change_callback_calls, callback_gui_calls_run. reflexivity.
  - intros ->. unfold day_change_enabled, config_look_day_change.
    rewrite (Options "look_day_change"%string).
    apply config_change_day_change_armed.
  - intros ->. unfold infobar_seconds, config_look_infobar_seconds.
    rewrite (Options "look_infobar_seconds"%string).
    apply config_change_infobar_seconds_armed.
  - apply run_change_callback_fired.
Qed.

End OptionRegistry.

Lemma config_file_option_set_integer_invalid_witness :
  config_file_option_set (ext := sample_externals) "look_scroll_amount" "0"
    (config_weechat_init (ext := sample_externals) startup_state) =
  (InvalidValue, config_weechat_init (ext := sample_externals) startup_state).
Proof.
  eapply (config_file_option_set_integer_invalid (ext := sample_externals)
            "look_scroll_amount" "0").
  - reflexivity.
  - reflexivity.
  - reflexivity.
  - right. exists 0. split; [reflexivity | left; reflexivity].
Defined.

Lemma config_file_option_set_callback_once_witness :
  gui_calls
    (snd (config_file_option_set (ext := sample_externals)
            "look_buffer_time_format" "%H:%M"
            (config_weechat_init (ext := sample_externals) startup_state))) =
  [call_util_get_time_length "%H:%M"; call_gui_chat_change_time_format;
   call_gui_window_redraw_buffer] /\
  config_file_option_set (ext := sample_externals) "look_day_change" "maybe"
    (config_weechat_init (ext := sample_externals) startup_state) =
  (InvalidValue, config_weechat_init (ext := sample_externals) startup_state).
Proof.
  split.
  - destruct (config_file_option_set_callback_once (ext := sample_externals)
                "look_buffer_time_format" "%H:%M"
                (config_weechat_init (ext := sample_externals) startup_state)
                _ cb_config_change_buffer_time_format eq_refl eq_refl)
      as [(v & c & st' & Hv & Hset & _ & _ & _ & (o' & Ho & Hval & _) & _ &
           Hcalls & _) | (H & _)].
    + rewrite Hset. cbn [snd]. rewrite Hcalls.
      injection Hv as <-.
      cbn [callback_gui_calls]. unfold config_look_buffer_time_format.
      rewrite Ho. destruct o'. cbn [option_value] in Hval. subst.
      reflexivity.
    + discriminate H.
  - destruct (config_file_option_set_callback_once (ext := sample_externals)
                "look_day_change" "maybe"
                (config_weechat_init (ext := sample_externals) startup_state)
                _ cb_config_change_day_change eq_refl eq_refl)
      as [(v & c & st' & H & _) | (_ & H & _)].
    + discriminate H.
    + exact H.
Defined.

(** Scenario A of the specification: [look_scroll_amount], an integer
    in [[1, INT_MAX]] with default 3, refuses 0 and keeps 3, then accepts
    10. *)
Example scenario_a :
  let st := config_weechat_init (ext := sample_externals) startup_state in
  CONFIG_INTEGER (config_look_scroll_amount st) = 3 /\
  fst (config_file_option_set (ext := sample_externals)
         "look_scroll_amount" "0" st) = InvalidValue /\
  CONFIG_INTEGER
    (config_look_scroll_amount
       (snd (config_file_option_set (ext := sample_externals)
               "look_scroll_amount" "0" st))) = 3 /\
  fst (config_file_option_set (ext := sample_externals)
         "look_scroll_amount" "10" st) = SetOk /\
  CONFIG_INTEGER
    (config_look_scroll_amount
       (snd (config_file_option_set (ext := sample_externals)
               "look_scroll_amount" "10" st))) = 10.
Proof. repeat split; reflexivity. Qed.

(** * Further properties of wee-config.c *)

(** ** The two timers *)

Module TimerFacts.

Lemma is_infobar_not_day (h : t_hook) :
  is_infobar_timer h = negb (is_day_change_timer h).
Proof.
  unfold is_infobar_timer, is_day_change_timer.
  destruct (hook_callback h); reflexivity.
Qed.

(** When the hooks selected by [f] are exactly one, at address [p], the
    list of hooks splits around it and no other hook is selected. *)
Lemma selected_hook_split (f : t_hook -> bool) (hooks : list t_hook) (p : Z) :
  map hook_ptr (filter f hooks) = [p] ->
  exists l1 h l2,
    hooks = l1 ++ h :: l2 /\ hook_ptr h = p /\ f h = true /\
    filter f (l1 ++ l2) = [].
Proof.
  intros T.
  destruct (filter f hooks) as [| h [| h' l]] eqn:F; try discriminate.
  injection T as T.
  assert (Hin : In h (filter f hooks)) by (rewrite F; left; reflexivity).
  apply filter_In in Hin as [Hin Hf].
  destruct (in_split _ _ Hin) as (l1 & l2 & E).
  exists l1, h, l2. repeat split; try assumption.
  rewrite E, filter_app in F. cbn [filter] in F. rewrite Hf in F.
  rewrite filter_app.
  destruct (filter f l1) as [| a l1'].
  - cbn in F. injection F as F. rewrite F. reflexivity.
  - cbn in F. injection F as _ F. destruct l1'; discriminate.
Qed.

Lemma filter_skip (f : t_hook -> bool) (l1 l2 : list t_hook) (h : t_hook) :
  f h = false -> filter f (l1 ++ h :: l2) = filter f (l1 ++ l2).
Proof.
  intros H. rewrite !filter_app. cbn [filter]. rewrite H. reflexivity.
Qed.

Lemma NoDup_ptr_remove (l1 l2 : list t_hook) (h : t_hook) :
  NoDup (map hook_ptr (l1 ++ h :: l2)) -> NoDup (map hook_ptr (l1 ++ l2)).
Proof.
  rewrite !map_app. cbn [map]. apply NoDup_remove_1.
Qed.

(** The handler of the day-change option keeps the invariant of both
    timers and leaves the infobar timer alone. *)
Lemma config_change_day_change_timers (st : State) :
  timers_invariant st ->
  timers_invariant (config_change_day_change st) /\
  gui_infobar_refresh_timer (config_change_day_change st) =
    gui_infobar_refresh_timer st /\
  infobar_timers (config_change_day_change st) = infobar_timers st.
Proof.
  intros [Inv I].
  pose proof (DayChangeFacts.config_change_day_change_invariant st Inv) as Inv'.
  destruct (DayChangeFacts.config_change_day_change_cases st Inv)
    as (C1 & C2 & C3 & C4).
  destruct (day_change_enabled st) eqn:E;
    destruct (config_day_change_timer st) as [p | ] eqn:Hp.
  - rewrite (C1 eq_refl p eq_refl).
    split; [split; assumption | split; reflexivity].
  - destruct (C3 eq_refl eq_refl) as (p & _ & Eq). rewrite Eq in *.
    assert (F : infobar_timers
                  (set_config_day_change_timer (Some p)
                     (set_weechat_hooks
                        (weechat_hooks st ++ [day_change_timer_hook p]) st))
                = infobar_timers st).
    { unfold infobar_timers.
      cbn [weechat_hooks set_weechat_hooks set_config_day_change_timer].
      rewrite filter_app. cbn. apply app_nil_r. }
    split; [split; [exact Inv' | rewrite F; exact I] | ].
    split; [reflexivity | exact F].
  - destruct (C4 eq_refl p eq_refl) as (l1 & h & l2 & Eh & _ & Hd & _ & Eq).
    rewrite Eq in *.
    assert (F : infobar_timers
                  (set_config_day_change_timer None
                     (set_weechat_hooks (l1 ++ l2) st))
                = infobar_timers st).
    { unfold infobar_timers.
      cbn [weechat_hooks set_weechat_hooks set_config_day_change_timer].
      rewrite Eh. symmetry. apply filter_skip.
      rewrite is_infobar_not_day, Hd. reflexivity. }
    split; [split; [exact Inv' | rewrite F; exact I] | ].
    split; [reflexivity | exact F].
  - rewrite (C2 eq_refl eq_refl).
    split; [split; assumption | split; reflexivity].
Qed.

(** The handler of [look_infobar_seconds] under the invariant: the old
    infobar timer, if any, goes, a new one comes, and the day-change
    timers stay. *)
Lemma config_change_infobar_seconds_timers (st : State) :
  timers_invariant st ->
  exists p,
    timers_invariant (config_change_infobar_seconds st) /\
    gui_infobar_refresh_timer (config_change_infobar_seconds st) = Some p /\
    infobar_timers (config_change_infobar_seconds st) =
      [infobar_timer_hook p (infobar_seconds st)] /\
    day_change_timers (config_change_infobar_seconds st) =
      day_change_timers st /\
    config_day_change_timer (config_change_infobar_seconds st) =
      config_day_change_timer st /\
    weechat_config_options (config_change_infobar_seconds st) =
      weechat_config_options st /\
    gui_calls (config_change_infobar_seconds st) =
      gui_calls st ++ [call_gui_infobar_refresh_timer_cb].
Proof.
  intros [[ND D] I].
  unfold config_change_infobar_seconds.
  assert (Hrest : exists rest,
             (match gui_infobar_refresh_timer st with
              | Some h => unhook h st
              | None => st
              end) = set_weechat_hooks rest st /\
             NoDup (map hook_ptr rest) /\
             filter is_infobar_timer rest = [] /\
             filter is_day_change_timer rest = day_change_timers st).
  { destruct (gui_infobar_refresh_timer st) as [h | ] eqn:Hh.
    - cbn in I.
      destruct (selected_hook_split _ _ _ I) as (l1 & x & l2 & E & Ex & Fx & F0).
      exists (l1 ++ l2). repeat split.
      + unfold unhook. rewrite E, <- Ex, DayChangeFacts.unhook_split;
          [reflexivity | ]. rewrite <- E. exact ND.
      + apply (NoDup_ptr_remove l1 l2 x). rewrite <- E. exact ND.
      + exact F0.
      + unfold day_change_timers. rewrite E. symmetry. apply filter_skip.
        rewrite is_infobar_not_day in Fx. apply negb_true_iff in Fx. exact Fx.
    - exists (weechat_hooks st). repeat split.
      + destruct st; reflexivity.
      + exact ND.
      + cbn in I. unfold infobar_timers in I.
        destruct (filter is_infobar_timer (weechat_hooks st));
          [reflexivity | discriminate].
  }
  destruct Hrest as (rest & -> & NDr & Fi & Fd).
  exists (hook_fresh_ptr rest).
  unfold hook_timer, gui_call, timers_invariant, day_change_timer_invariant,
    day_change_timers, infobar_timers, infobar_seconds,
    config_look_infobar_seconds, config_file_search_option.
  cbn [weechat_hooks set_weechat_hooks set_gui_infobar_refresh_timer
       set_gui_calls gui_infobar_refresh_timer config_day_change_timer
       weechat_config_options gui_calls].
  rewrite !filter_app, Fi, Fd. cbn [filter is_infobar_timer is_day_change_timer
                                    hook_callback app map hook_ptr
                                    infobar_timer_hook].
  rewrite app_nil_r, map_app.
  repeat split; try reflexivity.
  - apply ListFacts.NoDup_snoc; [exact NDr | ].
    apply DayChangeFacts.hook_fresh_ptr_fresh.
  - exact D.
Qed.

(** After the handler of the day-change option, the handle is set
    exactly when the option is on, and so many timers are armed. *)
Lemma config_change_day_change_count (st : State) :
  day_change_timer_invariant st ->
  (config_day_change_timer (config_change_day_change st) <> None <->
   day_change_enabled st = true) /\
  List.length (day_change_timers (config_change_day_change st)) =
    (if day_change_enabled st then 1%nat else 0%nat).
Proof.
  intros Inv.
  pose proof (DayChangeFacts.config_change_day_change_invariant st Inv)
    as [_ T].
  assert (H : config_day_change_timer (config_change_day_change st) <> None <->
              day_change_enabled st = true).
  { unfold config_change_day_change, day_change_enabled, hook_timer.
    destruct (negb (CONFIG_BOOLEAN (config_look_day_change st) =? 0));
      destruct (config_day_change_timer st) as [p | ] eqn:Hp; cbn;
      rewrite ?Hp; split; congruence. }
  split; [exact H | ].
  rewrite <- (length_map hook_ptr), T.
  destruct (day_change_enabled st);
    destruct (config_day_change_timer (config_change_day_change st));
    cbn; try reflexivity.
  - exfalso. destruct H as [_ H]. apply (H eq_refl). reflexivity.
  - exfalso. destruct H as [H _]. discriminate H. discriminate.
Qed.

End TimerFacts.

(** X1.  The handler of the day-change option is idempotent: a second
    call right after the first changes nothing, whatever the state. *)
Theorem config_change_day_change_idempotent (st : State) :
  config_change_day_change (config_change_day_change st) =
  config_change_day_change st.
Proof.
  assert (H : forall s,
             weechat_config_options s = weechat_config_options st ->
             (day_change_enabled st = true ->
              config_day_change_timer s <> None ->
              config_change_day_change s = s) /\
             (day_change_enabled st = false ->
              config_day_change_timer s = None ->
              config_change_day_change s = s)).
  { intros s Ho. unfold config_change_day_change, day_change_enabled,
      config_look_day_change, config_file_search_option. rewrite Ho.
    split; intros E Hs; rewrite E.
    - destruct (config_day_change_timer s); [reflexivity | contradiction].
    - rewrite Hs. reflexivity. }
  destruct (H (config_change_day_change st)) as [Ha Hb].
  { unfold config_change_day_change, hook_timer.
    destruct (negb _); destruct (config_day_change_timer st); reflexivity. }
  clear H. destruct (day_change_enabled st) eqn:E.
  - apply Ha; [reflexivity | ].
    unfold config_change_day_change, hook_timer.
    unfold day_change_enabled in E. rewrite E.
    destruct (config_day_change_timer st) eqn:Hp; cbn; congruence.
  - apply Hb; [reflexivity | ].
    unfold config_change_day_change.
    unfold day_change_enabled in E. rewrite E.
    destruct (config_day_change_timer st) eqn:Hp; [reflexivity | exact Hp].
Qed.

(** X2.  After the handler of the day-change option has run, the handle
    of the timer is set exactly when the option is on; and from a state
    that satisfies the invariant of the timer, exactly one day-change
    timer is armed when the option is on, none when it is off. *)
Theorem config_change_day_change_armed_iff_enabled (st : State) :
  day_change_timer_invariant st ->
  (config_day_change_timer (config_change_day_change st) <> None <->
   day_change_enabled st = true) /\
  List.length (day_change_timers (config_change_day_change st)) =
    (if day_change_enabled st then 1%nat else 0%nat).
Proof.
  intros Inv. split.
  - unfold config_change_day_change, day_change_enabled, hook_timer.
    destruct (negb (CONFIG_BOOLEAN (config_look_day_change st) =? 0));
      destruct (config_day_change_timer st) as [p | ] eqn:Hp; cbn;
      rewrite ?Hp; split; congruence.
  - apply TimerFacts.config_change_day_change_count, Inv.
Qed.

Lemma config_change_day_change_armed_iff_enabled_witness :
  List.length
    (day_change_timers
       (config_change_day_change
          (config_weechat_init (ext := sample_externals) startup_state)))
  = 1%nat.
Proof.
  apply (config_change_day_change_armed_iff_enabled
           (config_weechat_init (ext := sample_externals) startup_state)).
  split; [constructor | reflexivity].
Defined.

(** X3.  From a state that satisfies the invariant of both timers, the
    handler of [look_infobar_seconds] leaves exactly one infobar timer
    armed, the one its handle points to, with a period of one second
    when the option is on and of sixty seconds when it is off; the
    timer armed before is cancelled, the day-change timer and its handle
    are untouched, the invariant holds again, and the infobar is
    refreshed once. *)
Theorem config_change_infobar_seconds_rearms (st : State) :
  timers_invariant st ->
  exists p,
    timers_invariant (config_change_infobar_seconds st) /\
    gui_infobar_refresh_timer (config_change_infobar_seconds st) = Some p /\
    infobar_timers (config_change_infobar_seconds st) =
      [{| hook_ptr := p;
          hook_interval :=
            (if CONFIG_BOOLEAN (config_look_infobar_seconds st) =? 0
             then 60 else 1) * 1000;
          hook_align_second :=
            (if CONFIG_BOOLEAN (config_look_infobar_seconds st) =? 0
             then 60 else 1);
          hook_max_calls := 0;
          hook_callback := hook_cb_gui_infobar_refresh_timer |}] /\
    day_change_timers (config_change_infobar_seconds st) =
      day_change_timers st /\
    config_day_change_timer (config_change_infobar_seconds st) =
      config_day_change_timer st /\
    gui_calls (config_change_infobar_seconds st) =
      gui_calls st ++ [call_gui_infobar_refresh_timer_cb].
Proof.
  intros Inv.
  destruct (TimerFacts.config_change_infobar_seconds_timers st Inv)
    as (p & H1 & H2 & H3 & H4 & H5 & _ & H7).
  exists p. repeat split; try assumption; apply H1.
Qed.

Lemma config_change_infobar_seconds_rearms_witness :
  exists p,
    gui_infobar_refresh_timer
      (config_change_infobar_seconds
         (config_change_infobar_seconds
            (config_weechat_init (ext := sample_externals) startup_state)))
    = Some p.
Proof.
  destruct (config_change_infobar_seconds_rearms
              (config_change_infobar_seconds
                 (config_weechat_init (ext := sample_externals) startup_state)))
    as (p & _ & H & _).
  - repeat split; repeat constructor. intros [].
  - exists p. exact H.
Defined.

(** X4.  [config_weechat_read]: when the file engine reports an error
    (a code other than 0) the state is the one the engine left and no
    handler has run; when it reports 0, both handlers have run, and if
    the state the engine left satisfies the invariant of the timers then
    afterwards it still holds, exactly one infobar timer is armed, and a
    day-change timer is armed exactly when [look_day_change] is on. *)
Theorem config_weechat_read_timers
  (config_file_read : State -> Z * State) (st : State) :
  let rc := fst (config_file_read st) in
  let st1 := snd (config_file_read st) in
  fst (config_weechat_read config_file_read st) = rc /\
  (rc <> 0 -> config_weechat_read config_file_read st = (rc, st1)) /\
  (rc = 0 ->
   timers_invariant st1 ->
   let st2 := snd (config_weechat_read config_file_read st) in
   timers_invariant st2 /\
   List.length (infobar_timers st2) = 1%nat /\
   List.length (day_change_timers st2) =
     (if day_change_enabled st1 then 1%nat else 0%nat)).
Proof.
  cbv zeta. unfold config_weechat_read.
  destruct (config_file_read st) as [rc st1]. cbn [fst snd].
  destruct (rc =? 0) eqn:E; cbn [fst snd].
  - apply Z.eqb_eq in E. split; [reflexivity | split; [congruence | ]].
    intros _ Inv.
    destruct (TimerFacts.config_change_infobar_seconds_timers st1 Inv)
      as (p & I1 & I2 & I3 & I4 & I5 & I6 & _).
    destruct (TimerFacts.config_change_day_change_timers _ I1) as (J1 & J2 & J3).
    split; [exact J1 | split].
    + rewrite J3, I3. reflexivity.
    + assert (En : day_change_enabled (config_change_infobar_seconds st1) =
                   day_change_enabled st1).
      { unfold day_change_enabled, config_look_day_change,
          config_file_search_option. rewrite I6. reflexivity. }
      rewrite <- En.
      apply TimerFacts.config_change_day_change_count, I1.
  - apply Z.eqb_neq in E. split; [reflexivity | split; [reflexivity | ]].
    intros H. contradiction.
Qed.

Lemma config_weechat_read_timers_witness :
  List.length
    (infobar_timers
       (snd (config_weechat_read
               (fun s => (0, config_weechat_init (ext := sample_externals) s))
               startup_state)))
  = 1%nat.
Proof.
  apply (config_weechat_read_timers
           (fun s => (0, config_weechat_init (ext := sample_externals) s))
           startup_state).
  - reflexivity.
  - repeat split; repeat constructor.
Defined.

(** ** The Bars reader *)

Module BarsReaderFacts.

(** [strtol] reads the whole of a base-10 integer and returns its
    value, clamped to the range of [long]. *)
Lemma strtol_of_parse_integer (s : string) (n : Z) :
  parse_integer s = Some n -> strtol s = (clamp_long n, EmptyString).
Proof.
  unfold parse_integer, is_base10_integer, strtol.
  destruct (strip_sign (skip_spaces s)) as [neg s2]. cbn [snd].
  destruct s2 as [| c s2]; [discriminate | ].
  destruct (all_digits (String c s2)) eqn:A; [ | discriminate].
  intros H. injection H as <-.
  destruct (CLibFacts.strtol_digits_all _ 0 false A) as [m Em].
  unfold digits_value. rewrite Em. reflexivity.
Qed.

End BarsReaderFacts.

Section BarsReader.

Context {ext : Externals}.

(** X5.  A line of the Bars section whose value explodes into five
    fields, the third being a base-10 integer of value [n], makes the
    reader call [gui_bar_new] with the name of the line, the first two
    fields as type and position, the size [n] clamped to a [long] and
    then reduced to an [int] (so [n] itself when it is an [int], sign
    included), the separator flag 0 when the fourth field starts with
    the character 0 and 1 otherwise, and the fifth field as items. *)
Theorem config_weechat_read_bar_accepts
  (name value type position size separator items : string) (n : Z)
  (st : State) :
  string_explode value ";" = [type; position; size; separator; items] ->
  parse_integer size = Some n ->
  config_weechat_read_bar (Some name) (Some value) st =
    gui_bar_new name type position (int_of_long (clamp_long n))
      (if first_char_is "0" separator then 0 else 1) items st /\
  (INT_MIN <= n <= INT_MAX -> int_of_long (clamp_long n) = n).
Proof.
  intros E P. split.
  - unfold config_weechat_read_bar.
    destruct value as [| c value]; [discriminate E | ].
    cbn [string_is_empty negb]. rewrite E. cbn [List.length].
    change (Z.of_nat 5 =? 5) with true. cbv beta iota zeta.
    rewrite (BarsReaderFacts.strtol_of_parse_integer _ _ P).
    reflexivity.
  - intros R. unfold clamp_long.
    unfold INT_MIN, INT_MAX in R.
    destruct (n <? LONG_MIN) eqn:E1;
      [apply Z.ltb_lt in E1; unfold LONG_MIN in E1; lia | ].
    destruct (LONG_MAX <? n) eqn:E2;
      [apply Z.ltb_lt in E2; unfold LONG_MAX in E2; lia | ].
    apply CLibFacts.int_of_long_int. unfold INT_MIN, INT_MAX. exact R.
Qed.

(** X6.  The Bars reader only adds: after any lines, the bars of before
    are all there, unchanged and in order, followed by at most one new
    bar per line; nothing else of the state changes; and if the names of
    the bars were distinct they still are. *)
Theorem config_weechat_read_bar_additive
  (lines : list (string * string)) (st : State) :
  exists new_bars,
    config_file_read_section config_weechat_read_bar lines st =
      set_gui_bars (gui_bars st ++ new_bars) st /\
    (List.length new_bars <= List.length lines)%nat /\
    (NoDup (map bar_name (gui_bars st)) ->
     NoDup (map bar_name (gui_bars st ++ new_bars))).
Proof.
  revert st. induction lines as [| [name v] lines IH]; intros st.
  - exists []. cbn. rewrite app_nil_r.
    split; [symmetry; apply set_gui_bars_same | split; [lia | auto]].
  - rewrite read_section_cons. cbn [fst snd].
    destruct (config_weechat_read_bar_cases name v st)
      as [E | (b & _ & Nb & Fresh & E)]; rewrite E.
    + destruct (IH st) as (new_bars & E' & L & ND).
      exists new_bars. split; [exact E' | split; [cbn; lia | exact ND]].
    + destruct (IH (set_gui_bars (gui_bars st ++ [b]) st))
        as (new_bars & E' & L & ND).
      exists (b :: new_bars). cbn [gui_bars set_gui_bars] in E', ND.
      rewrite <- app_assoc in E', ND. split; [exact E' | split; [cbn; lia | ]].
      intros H. apply ND. rewrite map_app. cbn. rewrite Nb.
      apply ListFacts.NoDup_snoc; assumption.
Qed.

End BarsReader.

Lemma config_weechat_read_bar_accepts_witness :
  config_weechat_read_bar (ext := sample_externals) (Some "b2"%string)
    (Some "window_active;left; -07;0x;a,b"%string) startup_state =
  gui_bar_new (ext := sample_externals) "b2" "window_active" "left"
    (int_of_long (clamp_long (-7))) 0 "a,b" startup_state.
Proof.
  apply (config_weechat_read_bar_accepts (ext := sample_externals)
           "b2" "window_active;left; -07;0x;a,b"
           "window_active" "left" " -07" "0x" "a,b" (-7) startup_state);
    reflexivity.
Defined.

Lemma config_weechat_read_bar_additive_witness :
  exists new_bars,
    config_file_read_section (config_weechat_read_bar (ext := sample_externals))
      [("mybar", "root;top;1;1;[time]"); ("mybar", "root;bottom;2;0;x");
       ("bad", "root;top;x;1;[time]")]%string startup_state =
    set_gui_bars (gui_bars startup_state ++ new_bars) startup_state /\
    (List.length new_bars <= 3)%nat.
Proof.
  destruct (config_weechat_read_bar_additive (ext := sample_externals)
              [("mybar", "root;top;1;1;[time]"); ("mybar", "root;bottom;2;0;x");
               ("bad", "root;top;x;1;[time]")]%string startup_state)
    as (new_bars & E & L & _).
  exists new_bars. split; [exact E | exact L].
Defined.

(** ** Repeated firings of the day-change timer *)

Section RepeatedFirings.

Context {ext : Externals}.

(** The state one firing leaves: the notices are in the buffers and the
    flag is 1; nothing else has changed. *)
Lemma config_day_change_timer_cb_state (tv_sec : Z) (st : State) :
  snd (config_day_change_timer_cb tv_sec st) =
  set_gui_add_hotlist 1
    (set_gui_buffers
       (map (buffer_with_notice (day_change_text tv_sec st)) (gui_buffers st))
       st).
Proof.
  unfold config_day_change_timer_cb. cbn [snd].
  fold (day_change_text tv_sec st).
  set (loop := day_change_loop _ _ _).
  assert (Hb : gui_buffers loop =
               map (buffer_with_notice (day_change_text tv_sec st)) (gui_buffers st)).
  { subst loop.
    apply (day_change_loop_buffers _ (gui_buffers st) [] (set_gui_add_hotlist 0 st)).
    reflexivity. }
  destruct (day_change_loop_frame (day_change_text tv_sec st)
              (seq 0 (List.length (gui_buffers (set_gui_add_hotlist 0 st))))
              (set_gui_add_hotlist 0 st) eq_refl) as [buffers E].
  fold loop in E. rewrite E in Hb |- *. cbn [gui_buffers set_gui_buffers] in Hb.
  rewrite Hb. reflexivity.
Qed.

Lemma buffer_with_notices_nil (b : t_gui_buffer) :
  buffer_with_notices [] b = b.
Proof.
  unfold buffer_with_notices. destruct b as [[] lines]; cbn;
    [rewrite app_nil_r | ]; reflexivity.
Qed.

Lemma buffer_with_notices_cons (text : string) (texts : list string)
  (b : t_gui_buffer) :
  buffer_with_notices texts (buffer_with_notice text b) =
  buffer_with_notices (text :: texts) b.
Proof.
  unfold buffer_with_notices, buffer_with_notice.
  destruct b as [[] lines]; cbn; [rewrite <- app_assoc | ]; reflexivity.
Qed.

(** X7.  When the day-change timer fires several times, each formatted
    buffer receives one notice per firing, in the order of the firings,
    after the lines it had, each notice carrying the time of its firing
    formatted by the option as it was at the start; the other buffers
    are as they were; and the firings change neither the hotlist, nor
    the hooks, nor the handle of the timer, nor the options. *)
Theorem fire_day_change_accumulates (times : list Z) (st : State) :
  gui_buffers (fire_day_change times st) =
    map (buffer_with_notices (map (fun t => day_change_text t st) times))
      (gui_buffers st) /\
  gui_hotlist (fire_day_change times st) = gui_hotlist st /\
  weechat_hooks (fire_day_change times st) = weechat_hooks st /\
  config_day_change_timer (fire_day_change times st) =
    config_day_change_timer st /\
  weechat_config_options (fire_day_change times st) =
    weechat_config_options st.
Proof.
  revert st. induction times as [| t times IH]; intros st.
  - cbn. repeat split. rewrite <- (map_id (gui_buffers st)) at 1.
    apply map_ext. intros b. symmetry. apply buffer_with_notices_nil.
  - change (fire_day_change (t :: times) st)
      with (fire_day_change times (snd (config_day_change_timer_cb t st))).
    rewrite config_day_change_timer_cb_state.
    set (s1 := set_gui_add_hotlist 1 _).
    destruct (IH s1) as (B & H & K & T & O).
    rewrite B, H, K, T, O. subst s1.
    cbn [gui_buffers gui_hotlist weechat_hooks config_day_change_timer
         weechat_config_options set_gui_add_hotlist set_gui_buffers].
    repeat split. rewrite map_map. apply map_ext. intros b.
    cbn [map]. apply buffer_with_notices_cons.
Qed.

End RepeatedFirings.

(** ** The Keys reader and writer *)

Section KeysReaderWriter.

Context {ext : Externals}.

Lemma read_section_app
  (reader : option string -> option string -> State -> State)
  (l1 l2 : list (string * string)) (st : State) :
  config_file_read_section reader (l1 ++ l2) st =
  config_file_read_section reader l2 (config_file_read_section reader l1 st).
Proof. unfold config_file_read_section. apply fold_left_app. Qed.

Lemma bindings_of_app (key : string) (a b : list t_gui_key) :
  bindings_of key (a ++ b) = bindings_of key a ++ bindings_of key b.
Proof. apply filter_app. Qed.

Lemma bindings_of_unbind_other (key name : string) (keys : list t_gui_key) :
  name <> key ->
  bindings_of key
    (filter (fun k => negb (String.eqb (key_key k) name)) keys) =
  bindings_of key keys.
Proof.
  intros N. unfold bindings_of.
  induction keys as [| k keys IH]; [reflexivity | ].
  cbn [filter].
  destruct (String.eqb_spec (key_key k) name) as [E1 | N1]; cbn [negb].
  - destruct (String.eqb_spec (key_key k) key) as [E2 | N2];
      [congruence | exact IH].
  - cbn [filter]. destruct (String.eqb (key_key k) key);
      [rewrite IH | ]; [reflexivity | exact IH].
Qed.

Lemma bindings_of_unbind_same (key : string) (keys : list t_gui_key) :
  bindings_of key
    (filter (fun k => negb (String.eqb (key_key k) key)) keys) = [].
Proof.
  unfold bindings_of. induction keys as [| k keys IH]; [reflexivity | ].
  cbn [filter]. destruct (String.eqb (key_key k) key) eqn:E; cbn [negb].
  - exact IH.
  - cbn [filter]. rewrite E. exact IH.
Qed.

(** A line for another key sequence leaves the bindings of [key] as they
    are. *)
Lemma read_key_other (key name v : string) (st : State) :
  name <> key ->
  bindings_of key (gui_keys (config_weechat_read_key (Some name) (Some v) st)) =
  bindings_of key (gui_keys st).
Proof.
  intros N. unfold config_weechat_read_key, gui_keyboard_bind,
    gui_keyboard_unbind.
  destruct (negb (string_is_empty v)); cbn [gui_keys set_gui_keys].
  - rewrite bindings_of_app. unfold bindings_of at 2. cbn [filter].
    rewrite gui_keyboard_new_key.
    destruct (String.eqb_spec name key) as [E | _]; [contradiction | ].
    rewrite app_nil_r. apply bindings_of_unbind_other, N.
  - apply bindings_of_unbind_other, N.
Qed.

Lemma read_keys_other (key : string) (lines : list (string * string)) :
  (forall l, In l lines -> fst l <> key) ->
  forall st,
    bindings_of key
      (gui_keys (config_file_read_section config_weechat_read_key lines st)) =
    bindings_of key (gui_keys st).
Proof.
  induction lines as [| [name v] lines IH]; intros H st; [reflexivity | ].
  rewrite read_section_cons. cbn [fst snd].
  rewrite IH by (intros l Hl; apply H; right; exact Hl).
  apply read_key_other. apply (H (name, v)). left. reflexivity.
Qed.

(** X9.  The last line of a key sequence wins: after the Keys reader has
    read any lines, the bindings of a key sequence are given by the last
    line that names it, none when the value of that line is empty, and
    otherwise the single binding of the sequence to that value. *)
Theorem config_weechat_read_key_last_line_wins
  (l1 l2 : list (string * string)) (key v : string) (st : State) :
  (forall l, In l l2 -> fst l <> key) ->
  bindings_of key
    (gui_keys
       (config_file_read_section config_weechat_read_key
          (l1 ++ (key, v) :: l2) st)) =
  if string_is_empty v then [] else [gui_keyboard_new key v].
Proof.
  intros H. rewrite read_section_app, read_section_cons. cbn [fst snd].
  rewrite (read_keys_other key l2 H).
  unfold config_weechat_read_key, gui_keyboard_bind, gui_keyboard_unbind.
  destruct (string_is_empty v); cbn [negb gui_keys set_gui_keys].
  - apply bindings_of_unbind_same.
  - rewrite bindings_of_app, bindings_of_unbind_same.
    unfold bindings_of. cbn [filter app].
    rewrite gui_keyboard_new_key, String.eqb_refl. reflexivity.
Qed.

Lemma written_lines_keys (section_name : string) (st : State) :
  written_lines (config_weechat_write_keys [] section_name st) =
  flat_map
    (fun k => match key_text k with
              | Some t => [(key_write_name k, (dquote ++ t ++ dquote)%string)]
              | None => []
              end) (gui_keys st).
Proof.
  unfold config_weechat_write_keys, config_file_write_line.
  rewrite write_keys_loop_spec. unfold written_lines.
  rewrite flat_map_app. cbn [app flat_map snd].
  generalize (gui_keys st). intros keys.
  induction keys as [| k keys IH]; [reflexivity | ].
  cbn [flat_map]. rewrite flat_map_app, IH. f_equal.
  unfold key_lines. destruct (key_text k); reflexivity.
Qed.

(** X8.  The Keys writer omits no binding that the Keys reader made:
    when the names of the key functions are distinct fields, after the
    reader has read any lines from an empty binding list, the writer
    prints exactly one line per binding, in the order of the bindings,
    each under the name the binding is written under. *)
Theorem config_weechat_write_keys_complete
  (lines : list (string * string)) (section_name : string) (st : State) :
  key_functions_wf ->
  let k1 :=
    config_file_read_section config_weechat_read_key lines
      (set_gui_keys [] st) in
  map fst (written_lines (config_weechat_write_keys [] section_name k1)) =
    map key_write_name (gui_keys k1) /\
  List.length (written_lines (config_weechat_write_keys [] section_name k1)) =
    List.length (gui_keys k1).
Proof.
  intros WF. cbv zeta.
  destruct (read_keys_invariant lines (set_gui_keys [] st))
    as (keys & E & R & _); [constructor | constructor | ].
  rewrite E, written_lines_keys. cbn [gui_keys set_gui_keys].
  assert (M : map fst
                (flat_map
                   (fun k => match key_text k with
                             | Some t =>
                                 [(key_write_name k,
                                   (dquote ++ t ++ dquote)%string)]
                             | None => []
                             end) keys) = map key_write_name keys).
  { clear E. induction R as [| k keys Rk R IH]; [reflexivity | ].
    destruct (key_text_readable k WF Rk) as (t & T & _).
    cbn [flat_map map]. rewrite T. cbn [app map fst]. rewrite IH.
    reflexivity. }
  split; [exact M | ].
  rewrite <- (length_map fst), M, length_map. reflexivity.
Qed.

End KeysReaderWriter.

Lemma config_weechat_read_key_last_line_wins_witness :
  bindings_of "ctrl-c"
    (gui_keys
       (config_file_read_section
          (config_weechat_read_key (ext := sample_externals))
          ([("ctrl-c"%string, "/foo"%string)] ++
           ("ctrl-c"%string, "return"%string) ::
           [("meta-a"%string, "tab"%string)])
          startup_state)) =
  [gui_keyboard_new (ext := sample_externals) "ctrl-c" "return"].
Proof.
  apply (config_weechat_read_key_last_line_wins (ext := sample_externals)
           [("ctrl-c", "/foo")]%string [("meta-a", "tab")]%string
           "ctrl-c" "return" startup_state).
  intros l [<- | []]. discriminate.
Defined.

Lemma config_weechat_write_keys_complete_witness :
  List.length
    (written_lines
       (config_weechat_write_keys (ext := sample_externals) [] "keys"
          (config_file_read_section
             (config_weechat_read_key (ext := sample_externals))
             [("ctrl-c", "/foo"); ("meta-a", "tab x")]%string
             (set_gui_keys [] startup_state)))) =
  List.length
    (gui_keys
       (config_file_read_section
          (config_weechat_read_key (ext := sample_externals))
          [("ctrl-c", "/foo"); ("meta-a", "tab x")]%string
          (set_gui_keys [] startup_state))).
Proof.
  apply (config_weechat_write_keys_complete (ext := sample_externals)
           [("ctrl-c", "/foo"); ("meta-a", "tab x")]%string "keys"
           startup_state).
  exact sample_key_functions_wf.
Defined.

(** ** The change callbacks *)


(** X11.  Two handlers test the pointer of their option, not its value.
    Once [look_set_title] is declared, its handler asks for the title to
    be set whatever value the option has, and never for a reset; once
    [look_save_on_exit] is declared, its handler prints no warning and
    changes nothing, whatever value the option has. *)
Theorem change_handlers_test_option_pointer (v : t_config_value) (st : State) :
  (config_look_set_title st <> None ->
   let st' :=
     set_weechat_config_options
       (option_store "look_set_title" v (weechat_config_options st)) st in
   config_change_title st' = gui_call call_gui_window_title_set st' /\
   gui_calls (config_change_title st') =
     gui_calls st ++ [call_gui_window_title_set]) /\
  (config_look_save_on_exit st <> None ->
   let st' :=
     set_weechat_config_options
       (option_store "look_save_on_exit" v (weechat_config_options st)) st in
   config_change_save_on_exit st' = st').
Proof.
  split; intros H; cbv zeta.
  - unfold config_look_set_title, config_file_search_option in H.
    destruct (find _ (weechat_config_options st)) as [o | ] eqn:F;
      [ | contradiction].
    unfold config_change_title, config_look_set_title,
      config_file_search_option.
    cbn [weechat_config_options set_weechat_config_options].
    rewrite (option_store_search _ v _ _ F). split; reflexivity.
  - unfold config_look_save_on_exit, config_file_search_option in H.
    destruct (find _ (weechat_config_options st)) as [o | ] eqn:F;
      [ | contradiction].
    unfold config_change_save_on_exit, config_look_save_on_exit,
      config_file_search_option.
    cbn [weechat_config_options set_weechat_config_options].
    rewrite (option_store_search _ v _ _ F). reflexivity.
Qed.

Lemma change_handlers_test_option_pointer_witness :
  gui_calls
    (config_change_title
       (set_weechat_config_options
          (option_store "look_set_title" (VInt 0)
             (weechat_config_options
                (config_weechat_init (ext := sample_externals) startup_state)))
          (config_weechat_init (ext := sample_externals) startup_state))) =
  [call_gui_window_title_set].
Proof.
  apply (change_handlers_test_option_pointer (VInt 0)
           (config_weechat_init (ext := sample_externals) startup_state)).
  discriminate.
Defined.

(** ** Bars that exist already *)

Section BarsExisting.

Context {ext : Externals}.

(** X12.  The first definition of a bar wins: a line whose name is the
    name of a bar that exists already changes nothing, whatever its
    value, so lines that only name existing bars leave the state as it
    is; in particular, reading back the Bars section that the writer
    has just written for a state leaves that state unchanged. *)
Theorem config_weechat_read_bar_keeps_existing
  (lines : list (string * string)) (st : State) :
  ((forall l, In l lines -> In (fst l) (map bar_name (gui_bars st))) ->
   config_file_read_section config_weechat_read_bar lines st = st) /\
  forall section_name,
    config_file_read_section config_weechat_read_bar
      (written_lines (config_weechat_write_bars [] section_name st)) st = st.
Proof.
  assert (G : forall ls,
             (forall l, In l ls -> In (fst l) (map bar_name (gui_bars st))) ->
             config_file_read_section config_weechat_read_bar ls st = st).
  { induction ls as [| [name v] ls IH]; intros H; [reflexivity | ].
    rewrite read_section_cons. cbn [fst snd].
    destruct (config_weechat_read_bar_cases name v st)
      as [E | (b & _ & _ & Fresh & _)].
    - rewrite E. apply IH. intros l Hl. apply H. right. exact Hl.
    - exfalso. apply Fresh. apply (H (name, v)). left. reflexivity. }
  split; [apply G | ].
  intros section_name. apply G. rewrite written_lines_bars.
  intros l Hl. apply in_map_iff in Hl as (b & <- & Hb).
  cbn [bar_line fst]. apply in_map, Hb.
Qed.

End BarsExisting.

Lemma config_weechat_read_bar_keeps_existing_witness :
  config_file_read_section (config_weechat_read_bar (ext := sample_externals))
    [("mybar", "window_active;left;9;0;other")]%string
    (config_weechat_read_bar (ext := sample_externals)
       (Some "mybar"%string) (Some "root;top;1;1;[time]"%string)
       startup_state) =
  config_weechat_read_bar (ext := sample_externals)
    (Some "mybar"%string) (Some "root;top;1;1;[time]"%string) startup_state.
Proof.
  apply (config_weechat_read_bar_keeps_existing (ext := sample_externals)
           [("mybar", "window_active;left;9;0;other")]%string
           (config_weechat_read_bar (ext := sample_externals)
              (Some "mybar"%string) (Some "root;top;1;1;[time]"%string)
              startup_state)).
  intros l [<- | []]. left. reflexivity.
Defined.
